(** * Restaurant voice agent: the notebook's components, embedded and verified

    The development follows [research/trails.ipynb]: intent classification,
    response generation, the TwiML builder, order extraction, order
    persistence, the order total and the date parser.  Python values are an
    inductive type, exceptions are the [Raise] branch of a result monad, the
    SQLAlchemy session is threaded explicitly, and the remote services
    (the chat-completion endpoint, the JSON decoder, the [datetime] parsers)
    are section variables, so every statement holds for every behaviour of
    those collaborators. *)

From Stdlib Require Import ZArith String Ascii List Lia QArith.
From Stdlib Require Import DecimalString.
From stdpp Require Import base option gmap strings list.

Set Default Proof Using "Type".
Set Warnings "-register-all".

(* ===================================================================== *)
(** ** The Python fragment the notebook runs on *)
(* ===================================================================== *)

Module Py.

(** Exceptions the notebook can meet.  [ServiceError] stands for whatever
    the OpenAI client raises (timeout, rate limit, transport, API error). *)
Inductive exn : Type :=
| ServiceError (reason : string)
| IndexError
| KeyError (key : string)
| AttributeError
| TypeError
| ValueError
| JSONDecodeError
| IntegrityError (column : string)
| ProgrammingError (column : string)
| OverflowError
| PendingRollbackError.

(** A computation either returns or raises. *)
Inductive result (A : Type) : Type :=
| Ok (a : A)
| Raise (e : exn).
Arguments Ok {A} a.
Arguments Raise {A} e.

#[export] Instance result_ret : MRet result := fun _ a => Ok a.
#[export] Instance result_bind : MBind result := fun _ _ f m =>
  match m with
  | Ok a => f a
  | Raise e => Raise e
  end.

#[export] Instance result_fmap : FMap result := fun _ _ f m =>
  match m with
  | Ok a => Ok (f a)
  | Raise e => Raise e
  end.

Definition returns {A} (m : result A) : Prop := exists a, m = Ok a.
Definition raises {A} (m : result A) : Prop := exists e, m = Raise e.

(** Text.  A [str] is a Rocq string read as ASCII; the methods below agree
    with Python's on code points below 128, which is where the menu keys,
    the intent labels and the TwiML attributes live. *)

Definition isspace (c : ascii) : bool :=
  let n := N_of_ascii c in
  ((9 <=? n) && (n <=? 13) || (28 <=? n) && (n <=? 32))%N.

Definition isupper (c : ascii) : bool :=
  let n := N_of_ascii c in ((65 <=? n) && (n <=? 90))%N.

Definition lower_char (c : ascii) : ascii :=
  if isupper c then ascii_of_N (N_of_ascii c + 32) else c.

(** Text all of whose characters are ASCII: the text on which the
    definitions of this module are Python's. *)
Definition is_ascii (s : string) : bool :=
  forallb (fun c => (N_of_ascii c <? 128)%N) (list_ascii_of_string s).

(** [str.lower()] *)
Fixpoint lower (s : string) : string :=
  match s with
  | EmptyString => EmptyString
  | String c s' => String (lower_char c) (lower s')
  end.

(** [str.lstrip()], [str.rstrip()] and [str.strip()] with no argument *)
Fixpoint lstrip (s : string) : string :=
  match s with
  | EmptyString => EmptyString
  | String c s' => if isspace c then lstrip s' else s
  end.

Fixpoint rstrip (s : string) : string :=
  match s with
  | EmptyString => EmptyString
  | String c s' =>
      match rstrip s' with
      | EmptyString => if isspace c then EmptyString else String c EmptyString
      | r => String c r
      end
  end.

Definition strip (s : string) : string := rstrip (lstrip s).

(** Values: what [json.loads] can produce and what the notebook's dicts
    hold.  A dict keeps its insertion order ([json.dumps] prints in that
    order), so it is an association list; lookup takes the first binding.
    A JSON number with a fraction or an exponent decodes to a float, which
    this type does not have: the statements about quantities say that they
    are integers. *)
Inductive value : Type :=
| PNone
| PBool (b : bool)
| PInt (n : Z)
| PStr (s : string)
| PList (l : list value)
| PDict (kv : list (string * value)).

Definition dict : Type := list (string * value).

(** [k in d] and the lookup behind [d[k]] and [d.get(k)] *)
Fixpoint lookup_key {V : Type} (k : string) (d : list (string * V)) : option V :=
  match d with
  | [] => None
  | (k', v) :: d' => if String.eqb k k' then Some v else lookup_key k d'
  end.

Definition contains {V : Type} (k : string) (d : list (string * V)) : bool :=
  match lookup_key k d with Some _ => true | None => false end.

(** [d.get(k, dflt)]: the default is used only when the key is absent; a
    key bound to [None] yields [None]. *)
Definition get (d : dict) (k : string) (dflt : value) : value :=
  match lookup_key k d with
  | Some v => v
  | None => dflt
  end.

(** [d[k]] *)
Definition getitem {V : Type} (d : list (string * V)) (k : string) : result V :=
  match lookup_key k d with
  | Some v => Ok v
  | None => Raise (KeyError k)
  end.

(** Method lookup [x.get]: only a dict has it. *)
Definition as_dict (v : value) : result dict :=
  match v with
  | PDict kv => Ok kv
  | _ => Raise AttributeError
  end.

(** Truth value, as tested by [if x:] and [not x] *)
Definition truthy (v : value) : bool :=
  match v with
  | PNone => false
  | PBool b => b
  | PInt n => negb (n =? 0)%Z
  | PStr s => negb (String.eqb s EmptyString)
  | PList l => match l with [] => false | _ => true end
  | PDict kv => match kv with [] => false | _ => true end
  end.

End Py.
Import Py.

(* ===================================================================== *)
(** ** [json.dumps] with its default settings *)
(* ===================================================================== *)

Module Json.

Definition dquote : string := String "034"%char EmptyString.
Definition backslash : string := String "092"%char EmptyString.

(** [repr] of an [int] *)
Definition string_of_Z (n : Z) : string := NilZero.string_of_int (Z.to_int n).

Definition hex_digit (n : N) : ascii :=
  if (n <? 10)%N then ascii_of_N (48 + n) else ascii_of_N (87 + n).

(** One character of a JSON string under [ensure_ascii=True]: the quote and
    the backslash are escaped, the five short escapes are used, and every
    other character outside [' '..'~'] is printed as a four-digit escape. *)
Definition escape_char (c : ascii) : string :=
  let n := N_of_ascii c in
  if (n =? 34)%N then backslash +:+ dquote
  else if (n =? 92)%N then backslash +:+ backslash
  else if (n =? 10)%N then backslash +:+ "n"
  else if (n =? 13)%N then backslash +:+ "r"
  else if (n =? 9)%N then backslash +:+ "t"
  else if (n =? 8)%N then backslash +:+ "b"
  else if (n =? 12)%N then backslash +:+ "f"
  else if ((n <? 32) || (126 <? n))%N then
    backslash +:+ "u00" +:+
      String (hex_digit (n / 16)) (String (hex_digit (n mod 16)) EmptyString)
  else String c EmptyString.

Fixpoint escape (s : string) : string :=
  match s with
  | EmptyString => EmptyString
  | String c s' => escape_char c +:+ escape s'
  end.

Definition quote (s : string) : string := dquote +:+ escape s +:+ dquote.

(** Items are separated by [", "] and a key from its value by [": "]. *)
Fixpoint dumps (v : value) : string :=
  match v with
  | PNone => "null"
  | PBool true => "true"
  | PBool false => "false"
  | PInt n => string_of_Z n
  | PStr s => quote s
  | PList l =>
      "[" +:+
      (fix items (l : list value) : string :=
         match l with
         | [] => EmptyString
         | x :: l' =>
             match l' with
             | [] => dumps x
             | _ => dumps x +:+ ", " +:+ items l'
             end
         end) l +:+ "]"
  | PDict kv =>
      "{" +:+
      (fix members (kv : list (string * value)) : string :=
         match kv with
         | [] => EmptyString
         | (k, x) :: kv' =>
             match kv' with
             | [] => quote k +:+ ": " +:+ dumps x
             | _ => quote k +:+ ": " +:+ dumps x +:+ ", " +:+ members kv'
             end
         end) kv +:+ "}"
  end.

End Json.

(* ===================================================================== *)
(** ** The chat-completion collaborator *)
(* ===================================================================== *)

(** One entry of the [messages] argument. *)
Record message : Type := Message { role : string; content : string }.

(** The keyword arguments of [openai.chat.completions.create]. *)
Record chat_request : Type := ChatRequest {
  model : string;
  messages : list message;
  response_format : option string;
  max_tokens : Z;
  temperature : Q
}.

(** [response.choices]: each choice carries [message.content], which the
    client types as optional. *)
Definition completion : Type := list (option string).

(** The endpoint either answers or raises; nothing is assumed about it. *)
Definition chat_api : Type := chat_request -> result completion.

(** [response.choices[0].message.content] *)
Definition first_content (r : completion) : result (option string) :=
  match r with
  | [] => Raise IndexError
  | c :: _ => Ok c
  end.

Definition newline : string := String "010"%char EmptyString.

(** A triple-quoted literal whose text starts on the line after the quotes:
    every line is preceded by a line break. *)
Fixpoint block (lines : list string) : string :=
  match lines with
  | [] => EmptyString
  | l :: rest => newline +:+ l +:+ block rest
  end.

(* ===================================================================== *)
(** ** Intent classification *)
(* ===================================================================== *)

(** The seven labels the prompt offers. *)
Definition INTENTS : list string :=
  ["new_order"; "modify_order"; "cancel_order"; "check_status";
   "general_inquiry"; "end_call"; "unclear"].

Definition classify_prompt : string := block [
  "    You are an AI assistant for a restaurant. Classify the customer's intent into one of the following categories:";
  "    - new_order: Customer wants to place a new order";
  "    - modify_order: Customer wants to modify an existing order";
  "    - cancel_order: Customer wants to cancel an order";
  "    - check_status: Customer wants to check order status";
  "    - general_inquiry: Customer has a general question";
  "    - end_call: Customer wants to end the call";
  "    - unclear: Intent is not clear";
  "    ";
  "    Return only the category as a single word.";
  "    " ].

Definition classify_request (transcript : string) : chat_request :=
  {| model := "gpt-3.5-turbo-0125";
     messages := [ Message "system" classify_prompt; Message "user" transcript ];
     response_format := None;
     max_tokens := 10;
     temperature := 3 # 10 |}.

(** [classify_intent(transcript)].  The call is not guarded, the answer is
    stripped and lower-cased, and nothing compares it with the labels. *)
Definition classify_intent (create : chat_api) (transcript : string)
  : result string :=
  response ← create (classify_request transcript);
  content ← first_content response;
  match content with
  | Some text => Ok (lower (strip text))
  | None => Raise AttributeError
  end.

(* ===================================================================== *)
(** ** Response generation *)
(* ===================================================================== *)

(** One entry of [conversation_history]: a dict with the caller's words
    under ["customer"] and, once answered, the reply under ["assistant"]. *)
Definition exchange : Type := list (string * string).

Definition persona_prompt : string := block [
  "    You are an AI assistant for Mario's Italian Restaurant. Your name is Mario's Virtual Assistant.";
  "    You handle phone orders and reservations politely and efficiently.";
  "    ";
  "    Restaurant details:";
  "    - Hours: Tuesday-Sunday, 11am-10pm (closed Mondays)";
  "    - Specials: Margherita Pizza ($16), Seafood Linguine ($22), Tiramisu ($8)";
  "    - Delivery available within 5 miles, $3 delivery fee";
  "    - Reservations needed for parties of 5 or more";
  "    ";
  "    When taking orders or making reservations:";
  "    1. Get customer name";
  "    2. Get order details or reservation time/party size";
  "    3. Confirm details before finalizing";
  "    4. End with a polite message";
  "    ";
  "    Keep responses conversational but concise (max 3 sentences).";
  "    If you can't help or understand, politely offer to transfer to a human.";
  "    " ].

(** The loop over the history: [exchange["customer"]] is indexed, so a
    missing key raises; the reply is added when present. *)
Fixpoint history_messages (history : list exchange) : result (list message) :=
  match history with
  | [] => Ok []
  | ex :: rest =>
      customer ← getitem ex "customer";
      let turn :=
        match lookup_key "assistant" ex with
        | Some reply => [ Message "user" customer; Message "assistant" reply ]
        | None => [ Message "user" customer ]
        end in
      more ← history_messages rest;
      Ok (turn ++ more)
  end.

Definition order_context (order_data : value) : list message :=
  if truthy order_data
  then [ Message "system"
           ("Customer has an existing order: " +:+ Json.dumps order_data) ]
  else [].

Definition generate_request (msgs : list message) : chat_request :=
  {| model := "gpt-4o";
     messages := msgs;
     response_format := None;
     max_tokens := 150;
     temperature := 7 # 10 |}.

(** [generate_response(transcript, conversation_history, order_data=None)].
    The reply is whatever the first choice holds; the call is not guarded
    and the function has no utterance of its own to fall back on. *)
Definition generate_response (create : chat_api) (transcript : string)
    (conversation_history : list exchange) (order_data : value)
  : result (option string) :=
  past ← history_messages conversation_history;
  let msgs :=
    [ Message "system" persona_prompt ] ++ past
      ++ [ Message "user" transcript ] ++ order_context order_data in
  response ← create (generate_request msgs);
  first_content response.

(* ===================================================================== *)
(** ** The TwiML builder *)
(* ===================================================================== *)

Module Twiml.

(** Attributes of a [<Gather>]. *)
Record gather : Type := Gather {
  input : string;
  action : string;
  timeout : Z;
  speech_timeout : string;
  language : string
}.

(** The three verbs the notebook emits. *)
Inductive verb : Type :=
| Say (text : string) (voice : string)
| Listen (g : gather)
| Redirect (url : string).

(** A [VoiceResponse] is the sequence of its children, in document order;
    Twilio runs them top to bottom and reaches the verb after a [<Gather>]
    only when the gather ended without input. *)
Definition VoiceResponse : Type := list verb.

Definition empty : VoiceResponse := [].
Definition say (r : VoiceResponse) (text voice : string) : VoiceResponse :=
  r ++ [Say text voice].
Definition append (r : VoiceResponse) (v : verb) : VoiceResponse := r ++ [v].
Definition redirect (r : VoiceResponse) (url : string) : VoiceResponse :=
  r ++ [Redirect url].

Definition is_say (v : verb) : bool :=
  match v with Say _ _ => true | _ => false end.
Definition is_listen (v : verb) : bool :=
  match v with Listen _ => true | _ => false end.
Definition is_redirect (v : verb) : bool :=
  match v with Redirect _ => true | _ => false end.

Definition count (p : verb -> bool) (r : VoiceResponse) : nat :=
  length (filter (fun v => p v = true) r).

(** The same documents as Python holds them: mutable objects in the
    interpreter's memory.  A method such as [say] or [redirect] makes the
    child itself; [append] nests an object made elsewhere, by reference. *)
Inductive node : Type :=
| NSay (text : string) (voice : string)
| NRedirect (url : string)
| NRef (at_ : nat).

Inductive object : Type :=
| OResponse (children : list node)
| OGather (g : gather).

(** Memory: object number [n] is the [n]-th entry; a new object goes to
    the end. *)
Abbreviation memory := (list object).

Definition resolve (h : memory) (n : node) : option verb :=
  match n with
  | NSay text voice => Some (Say text voice)
  | NRedirect url => Some (Redirect url)
  | NRef l =>
      match h !! l with
      | Some (OGather g) => Some (Listen g)
      | _ => None
      end
  end.

Fixpoint resolve_all (h : memory) (ns : list node) : option VoiceResponse :=
  match ns with
  | [] => Some []
  | n :: rest =>
      match resolve h n, resolve_all h rest with
      | Some v, Some vs => Some (v :: vs)
      | _, _ => None
      end
  end.

(** The document a response object stands for, as printing it shows. *)
Definition document_of (h : memory) (r : nat) : option VoiceResponse :=
  match h !! r with
  | Some (OResponse children) => resolve_all h children
  | _ => None
  end.

End Twiml.
Import Twiml.

Definition NO_INPUT_ENDPOINT : string := "/voice/handle-no-input".

Definition speech_gather : gather :=
  {| input := "speech";
     action := "/voice/process-speech";
     timeout := 3;
     speech_timeout := "auto";
     language := "en-US" |}.

(** [generate_twiml_response(ai_message, gather_speech=True)].  A fresh
    response object is filled and returned; no global is read or written. *)
Definition generate_twiml_response (ai_message : string) (gather_speech : bool)
  : VoiceResponse :=
  let response := Twiml.empty in
  let response := say response ai_message "Polly.Joanna" in
  if gather_speech then
    let response := append response (Listen speech_gather) in
    redirect response NO_INPUT_ENDPOINT
  else response.

(* ===================================================================== *)
(** ** The order total *)
(* ===================================================================== *)

(** The mock menu, in cents, keyed by lower-case item name. *)
Definition menu_prices : gmap string Z :=
  {[ "margherita pizza" := 1600%Z; "seafood linguine" := 2200%Z;
     "tiramisu" := 800%Z ]}.

Definition DEFAULT_PRICE : Z := 1000.

(** [for item in order_items]: a list yields its elements, a dict its keys,
    a string its characters; nothing else can be iterated. *)
Fixpoint chars (s : string) : list value :=
  match s with
  | EmptyString => []
  | String c s' => PStr (String c EmptyString) :: chars s'
  end.

Definition iterate (v : value) : result (list value) :=
  match v with
  | PList l => Ok l
  | PDict kv => Ok (map (fun p => PStr (fst p)) kv)
  | PStr s => Ok (chars s)
  | _ => Raise TypeError
  end.

(** [x.lower()]: only a string has the method. *)
Definition lower_of (v : value) : result string :=
  match v with
  | PStr s => Ok (lower s)
  | _ => Raise AttributeError
  end.

(** [total += price * quantity] with [total] and [price] integers.  A [bool]
    is an [int]; a string or a list can be repeated but not added to an
    integer, and the remaining values cannot be multiplied: all of those
    end in a [TypeError]. *)
Definition add_line (total price : Z) (quantity : value) : result Z :=
  match quantity with
  | PInt q => Ok (total + price * q)%Z
  | PBool b => Ok (total + price * (if b then 1 else 0))%Z
  | _ => Raise TypeError
  end.

(** The body of the loop, for one item. *)
Definition add_item (total : Z) (item : value) : result Z :=
  fields ← as_dict item;
  item_name ← lower_of (get fields "item" (PStr EmptyString));
  let quantity := get fields "quantity" (PInt 1) in
  let price := default DEFAULT_PRICE (menu_prices !! item_name) in
  add_line total price quantity.

Fixpoint total_from (total : Z) (items : list value) : result Z :=
  match items with
  | [] => Ok total
  | item :: rest => total' ← add_item total item; total_from total' rest
  end.

(** [calculate_order_total(order_items)] *)
Definition calculate_order_total (order_items : value) : result Z :=
  items ← iterate order_items;
  total_from 0 items.

(* ===================================================================== *)
(** ** Extraction, date parsing and persistence *)
(* ===================================================================== *)

(** [try: body / except <classes>: handler]: the handler runs only for the
    listed classes, any other exception goes on to the caller. *)
Definition try_except {A : Type} (body : result A) (caught : exn -> bool)
    (handler : result A) : result A :=
  match body with
  | Ok a => Ok a
  | Raise e => if caught e then handler else Raise e
  end.

Definition is_json_decode_error (e : exn) : bool :=
  match e with JSONDecodeError => true | _ => false end.

Definition is_value_or_type_error (e : exn) : bool :=
  match e with ValueError | TypeError => true | _ => false end.

Definition extract_prompt : string := block [
  "    Extract order details from the conversation. Return a JSON object with these fields:";
  "    - customer_name: customer's name or null if unknown";
  "    - order_items: array of items ordered with quantity and special instructions";
  "    - is_delivery: boolean indicating if delivery is requested";
  "    - address: delivery address or null if not provided";
  "    - reservation_time: datetime string if a reservation was made or null";
  "    - party_size: number of people if a reservation was made or null";
  "    ";
  "    Only include information explicitly stated in the conversation.";
  "    " ].

(** The conversation as one text, a line per utterance. *)
Fixpoint conversation_text (history : list exchange) : string :=
  match history with
  | [] => EmptyString
  | ex :: rest =>
      match lookup_key "customer" ex with
      | Some said => "Customer: " +:+ said +:+ newline
      | None => EmptyString
      end +:+
      match lookup_key "assistant" ex with
      | Some reply => "Assistant: " +:+ reply +:+ newline
      | None => EmptyString
      end +:+ conversation_text rest
  end.

Definition extract_request (full_conversation : string) : chat_request :=
  {| model := "gpt-4o";
     messages := [ Message "system" extract_prompt;
                   Message "user" full_conversation ];
     response_format := Some "json_object";
     max_tokens := 500;
     temperature := 2 # 10 |}.

(** The dict returned when the payload does not decode. *)
Definition FALLBACK_DETAILS : value :=
  PDict [ ("customer_name", PNone);
          ("order_items", PList []);
          ("is_delivery", PBool false);
          ("address", PNone);
          ("reservation_time", PNone);
          ("party_size", PNone);
          ("parsing_error", PBool true) ].

Definition DATETIME_FORMAT : string := "%Y-%m-%d %H:%M:%S".

Section Notebook.

(** The standard-library calls the notebook relies on.  Each may raise. *)
Context {datetime : Type}.
Variable json_loads : string -> result value.
Variable fromisoformat : string -> result datetime.
Variable strptime : string -> string -> result datetime.

(** [json.loads(x)] for [x] a string or [None] *)
Definition loads (payload : option string) : result value :=
  match payload with
  | Some text => json_loads text
  | None => Raise TypeError
  end.

(** [parse_order_details(transcript, conversation_history)].  Only the
    decoding sits inside the [try]; the request is issued before it. *)
Definition parse_order_details (create : chat_api) (transcript : string)
    (conversation_history : list exchange) : result value :=
  let full_conversation :=
    conversation_text conversation_history +:+ "Customer: " +:+ transcript in
  response ← create (extract_request full_conversation);
  try_except
    (payload ← first_content response; loads payload)
    is_json_decode_error
    (Ok FALLBACK_DETAILS).

(** The two parsers applied to an arbitrary value: anything but a string is
    a [TypeError]. *)
Definition datetime_fromisoformat (v : value) : result datetime :=
  match v with
  | PStr s => fromisoformat s
  | _ => Raise TypeError
  end.

Definition datetime_strptime (v : value) (format : string) : result datetime :=
  match v with
  | PStr s => strptime s format
  | _ => Raise TypeError
  end.

(** [parse_datetime(datetime_str)] *)
Definition parse_datetime (datetime_str : value) : result (option datetime) :=
  if negb (truthy datetime_str) then Ok None
  else
    try_except
      (Some <$> datetime_fromisoformat datetime_str)
      is_value_or_type_error
      (try_except
         (Some <$> datetime_strptime datetime_str DATETIME_FORMAT)
         is_value_or_type_error
         (Ok None)).

(** A row of the [orders] table, as the [Order] object holds it.  The two
    timestamps come from the clock and are left out. *)
Record Order : Type := mkOrder {
  id : Z;
  customer_name : value;        (* String(100), nullable=False *)
  customer_phone : string;      (* String(20), nullable=False *)
  order_items : string;         (* Text, nullable=False: JSON text *)
  order_total : Z;              (* Integer: total in cents *)
  reservation_time : option datetime;   (* DateTime, nullable=True *)
  party_size : value;           (* Integer, nullable=True *)
  status : string               (* String(20), default 'confirmed' *)
}.

(** The SQLAlchemy session, as far as the notebook uses it: the rows of the
    [orders] table, and whether a flush has failed since the last rollback.
    The notebook never rolls back, so once that has happened every later
    commit is refused. *)
Record session : Type := Session {
  table : list Order;
  needs_rollback : bool
}.

(** The primary key SQLite assigns: one more than the largest in use. *)
Definition next_id (rows : list Order) : Z :=
  (1 + fold_right Z.max 0 (map id rows))%Z.

(** SQLite integers are signed 64-bit. *)
Definition fits_int64 (n : Z) : bool :=
  ((- 2 ^ 63 <=? n) && (n <? 2 ^ 63))%Z.

(** The driver binds [None], text and integers that fit; it refuses a list
    or a dict, and an integer that does not fit, before the statement
    runs. *)
Definition bindable (v : value) : bool :=
  match v with
  | PList _ | PDict _ => false
  | PInt n => fits_int64 n
  | _ => true
  end.

(** What it raises for a value it cannot bind. *)
Definition bind_error (column : string) (v : value) : exn :=
  match v with
  | PInt _ => OverflowError
  | _ => ProgrammingError column
  end.

Definition is_none (v : value) : bool :=
  match v with PNone => true | _ => false end.

(** Why the insert of a row is refused, if it is: the parameters are bound
    in column order, then the [nullable=False] columns are checked. *)
Definition refusal (row : Order) : option exn :=
  if negb (bindable (customer_name row)) then
    Some (bind_error "orders.customer_name" (customer_name row))
  else if negb (fits_int64 (order_total row)) then
    Some OverflowError
  else if negb (bindable (party_size row)) then
    Some (bind_error "orders.party_size" (party_size row))
  else if is_none (customer_name row) then
    Some (IntegrityError "orders.customer_name")
  else None.

(** Code that uses the session: it returns or raises, and leaves a session. *)
Definition transaction (A : Type) : Type := session -> result A * session.

#[global] Instance transaction_ret : MRet transaction := fun _ a s => (Ok a, s).
#[global] Instance transaction_bind : MBind transaction := fun _ _ f m s =>
  match m s with
  | (Ok a, s') => f a s'
  | (Raise e, s') => (Raise e, s')
  end.

(** Code that does not touch the session. *)
Definition lift {A : Type} (r : result A) : transaction A := fun s => (r, s).

(** [session.add(row); session.commit()]: the row receives its key when it
    is flushed.  After a failed flush the commit is refused outright.  A
    refused insert rolls the statement back, so the table is as before,
    and leaves the session waiting for a rollback. *)
Definition add_and_commit (pending : Z -> Order) : transaction Order :=
  fun s =>
    if needs_rollback s then (Raise PendingRollbackError, s)
    else
      let row := pending (next_id (table s)) in
      match refusal row with
      | Some e => (Raise e, {| table := table s; needs_rollback := true |})
      | None =>
          (Ok row, {| table := table s ++ [row]; needs_rollback := false |})
      end.

(** [save_order(order_details, customer_phone)].  The keyword arguments are
    evaluated in the order they are written, then the row is inserted and
    its key returned. *)
Definition save_order (s : session) (order_details : value)
    (customer_phone : string) : result Z * session :=
  (details ← lift (as_dict order_details);
   let name := get details "customer_name" (PStr "Unknown") in
   let items_text := Json.dumps (get details "order_items" (PList [])) in
   total ← lift (calculate_order_total (get details "order_items" (PList [])));
   reservation ← lift (parse_datetime (get details "reservation_time" PNone));
   let size := get details "party_size" PNone in
   let new_order := fun key =>
     {| id := key;
        customer_name := name;
        customer_phone := customer_phone;
        order_items := items_text;
        order_total := total;
        reservation_time := reservation;
        party_size := size;
        status := "confirmed" |} in
   new_order ← add_and_commit new_order;
   mret (id new_order)) s.

(** The row [save_order] builds from a draft, named for the statements
    about it: the key, the total and the reservation time are given. *)
Definition row_of (fields : dict) (phone : string) (key total : Z)
    (reservation : option datetime) : Order :=
  {| id := key;
     customer_name := get fields "customer_name" (PStr "Unknown");
     customer_phone := phone;
     order_items := Json.dumps (get fields "order_items" (PList []));
     order_total := total;
     reservation_time := reservation;
     party_size := get fields "party_size" PNone;
     status := "confirmed" |}.

(** *** The notebook as a whole

    To speak about calls made one after another, the process state is made
    explicit: the open session, the number of requests sent so far and the
    objects in memory.  The remote model may answer the same request
    differently each time, so its behaviour is indexed by that number. *)
Variable service : nat -> chat_api.

Record world : Type := World {
  db : session;
  requests : nat;
  objects : memory
}.

(** [C(...)]: a new object, and its number. *)
Definition new_object (o : object) (w : world) : nat * world :=
  (length (objects w),
   {| db := db w; requests := requests w; objects := objects w ++ [o] |}).

(** [r.say(...)], [r.append(...)], [r.redirect(...)]: one more child at the
    end of the children of response [r].  The builder calls these on the
    response it has just made, and on nothing else. *)
Definition nest (r : nat) (n : node) (w : world) : world :=
  match objects w !! r with
  | Some (OResponse children) =>
      {| db := db w; requests := requests w;
         objects := <[r := OResponse (children ++ [n])]> (objects w) |}
  | _ => w
  end.

(** [generate_twiml_response(ai_message, gather_speech=True)], statement by
    statement on the objects it creates; what it returns is the number of
    the response object. *)
Definition generate_twiml_response_object (ai_message : string)
    (gather_speech : bool) (w : world) : nat * world :=
  let '(response, w) := new_object (OResponse []) w in
  let w := nest response (NSay ai_message "Polly.Joanna") w in
  if gather_speech then
    let '(gather, w) := new_object (OGather speech_gather) w in
    let w := nest response (NRef gather) w in
    let w := nest response (NRedirect NO_INPUT_ENDPOINT) w in
    (response, w)
  else (response, w).

Inductive call : Type :=
| CClassify (transcript : string)
| CGenerate (transcript : string) (history : list exchange) (order_data : value)
| CTwiml (ai_message : string) (gather_speech : bool)
| CParse (transcript : string) (history : list exchange)
| CSave (order_details : value) (phone : string)
| CTotal (order_items : value)
| CDatetime (datetime_str : value).

Inductive outcome : Type :=
| OIntent (r : result string)
| OReply (r : result (option string))
| ODocument (r : option VoiceResponse)
| ODetails (r : result value)
| OSaved (r : result Z)
| OTotal (r : result Z)
| ODatetime (r : result (option datetime)).

(** A request is counted when it is sent: [generate_response] sends none
    when the history already raises. *)
Definition step (c : call) (w : world) : outcome * world :=
  match c with
  | CClassify t =>
      (OIntent (classify_intent (service (requests w)) t),
       World (db w) (S (requests w)) (objects w))
  | CGenerate t h o =>
      (OReply (generate_response (service (requests w)) t h o),
       World (db w)
         (match history_messages h with
          | Ok _ => S (requests w)
          | Raise _ => requests w
          end)
         (objects w))
  | CTwiml m g =>
      let '(response, w') := generate_twiml_response_object m g w in
      (ODocument (document_of (objects w') response), w')
  | CParse t h =>
      (ODetails (parse_order_details (service (requests w)) t h),
       World (db w) (S (requests w)) (objects w))
  | CSave d p =>
      let '(r, s') := save_order (db w) d p in
      (OSaved r, World s' (requests w) (objects w))
  | CTotal v => (OTotal (calculate_order_total v), w)
  | CDatetime v => (ODatetime (parse_datetime v), w)
  end.

Fixpoint run (cs : list call) (w : world) : list outcome * world :=
  match cs with
  | [] => ([], w)
  | c :: rest =>
      let '(o, w1) := step c w in
      let '(os, w2) := run rest w1 in
      (o :: os, w2)
  end.

End Notebook.

(* ===================================================================== *)
(** ** The order total, in the specification's words *)
(* ===================================================================== *)

Module Spec.

(** A line item: a name and a quantity. *)
Record line_item : Type := LineItem { name : string; quantity : Z }.

(** The fixed menu table. *)
Definition MENU_TABLE : list (string * Z) :=
  [ ("margherita pizza", 1600%Z); ("seafood linguine", 2200%Z);
    ("tiramisu", 800%Z) ].

(** Names match when they are equal up to letter case. *)
Definition same_name (a b : string) : bool := String.eqb (lower a) (lower b).

(** The unit price: the table's entry for the name, or the fixed default. *)
Definition unit_price (n : string) : Z :=
  match find (fun entry => same_name (fst entry) n) MENU_TABLE with
  | Some entry => snd entry
  | None => 1000%Z
  end.

(** total = sum of price times quantity *)
Fixpoint computeTotal (items : list line_item) : Z :=
  match items with
  | [] => 0%Z
  | it :: rest => (unit_price (name it) * quantity it + computeTotal rest)%Z
  end.

(** An element of [order_items] that carries exactly this line. *)
Definition represents (item : value) (line : line_item) : Prop :=
  exists fields,
    item = PDict fields /\
    lookup_key "item" fields = Some (PStr (name line)) /\
    lookup_key "quantity" fields = Some (PInt (quantity line)).

End Spec.

(* ===================================================================== *)
(** ** Executable stand-ins for the library calls

    The theorems below hold for every decoder and every pair of date
    parsers.  To run the notebook's functions on concrete inputs, this
    module supplies small ones: a decoder for JSON without escapes, floats
    or exponents, and date parsers for the zero-padded fixed-width form.
    Each accepts a subset of what the Python library accepts and raises
    the library's exception on everything else. *)
(* ===================================================================== *)

Module Lib.

Record timestamp : Type := Timestamp {
  year : Z; month : Z; day : Z; hour : Z; minute : Z; second : Z
}.

Definition digit (c : ascii) : option Z :=
  let n := N_of_ascii c in
  if ((48 <=? n) && (n <=? 57))%N then Some (Z.of_N (n - 48)) else None.

(** The value of a run of decimal digits, or nothing if a character is not
    a digit or the run is empty. *)
Fixpoint number_from (acc : Z) (cs : list ascii) : option Z :=
  match cs with
  | [] => Some acc
  | c :: rest =>
      match digit c with
      | Some d => number_from (10 * acc + d) rest
      | None => None
      end
  end.

Definition number (cs : list ascii) : option Z :=
  match cs with
  | [] => None
  | _ => number_from 0 cs
  end.

Definition in_range (lo hi : Z) (o : option Z) : option Z :=
  match o with
  | Some n => if ((lo <=? n) && (n <=? hi))%Z then Some n else None
  | None => None
  end.

(** [YYYY-MM-DD?HH:MM:SS] with the separator [?] taken from [seps]. *)
Definition fixed_width (seps : list ascii) (s : string) : result timestamp :=
  match list_ascii_of_string s with
  | [y1; y2; y3; y4; a; m1; m2; b; d1; d2; sep; h1; h2; c; n1; n2; d; s1; s2] =>
      if Ascii.eqb a "-" && Ascii.eqb b "-" && Ascii.eqb c ":" && Ascii.eqb d ":"
         && existsb (Ascii.eqb sep) seps
      then
        match in_range 1 9999 (number [y1; y2; y3; y4]),
              in_range 1 12 (number [m1; m2]),
              in_range 1 28 (number [d1; d2]),
              in_range 0 23 (number [h1; h2]),
              in_range 0 59 (number [n1; n2]),
              in_range 0 59 (number [s1; s2]) with
        | Some y, Some mo, Some dy, Some h, Some mi, Some se =>
            Ok (Timestamp y mo dy h mi se)
        | _, _, _, _, _, _ => Raise ValueError
        end
      else Raise ValueError
  | _ => Raise ValueError
  end.

Definition fromisoformat (s : string) : result timestamp :=
  fixed_width ["T"%char; " "%char] s.

Definition strptime (s format : string) : result timestamp :=
  if String.eqb format DATETIME_FORMAT then fixed_width [" "%char] s
  else Raise ValueError.

(** *** A decoder for a fragment of JSON *)

Definition json_space (c : ascii) : bool :=
  let n := N_of_ascii c in
  ((n =? 32) || (n =? 9) || (n =? 10) || (n =? 13))%N.

Fixpoint skip_space (cs : list ascii) : list ascii :=
  match cs with
  | c :: rest => if json_space c then skip_space rest else cs
  | [] => []
  end.

Fixpoint drop_prefix (p cs : list ascii) : option (list ascii) :=
  match p, cs with
  | [], _ => Some cs
  | a :: p', c :: cs' => if Ascii.eqb a c then drop_prefix p' cs' else None
  | _ :: _, [] => None
  end.

(** Digits at the head of the input, and what follows them. *)
Fixpoint span_digits (cs : list ascii) : list ascii * list ascii :=
  match cs with
  | c :: rest =>
      match digit c with
      | Some _ => let '(ds, tl) := span_digits rest in (c :: ds, tl)
      | None => ([], cs)
      end
  | [] => ([], [])
  end.

(** The body of a string up to its closing quote; an escape or a control
    character is outside the fragment. *)
Fixpoint string_body (cs : list ascii) : option (string * list ascii) :=
  match cs with
  | [] => None
  | c :: rest =>
      let n := N_of_ascii c in
      if (n =? 34)%N then Some (EmptyString, rest)
      else if ((n =? 92) || (n <? 32))%N then None
      else
        match string_body rest with
        | Some (s, tl) => Some (String c s, tl)
        | None => None
        end
  end.

(** A later binding of a key replaces an earlier one, in place. *)
Fixpoint bind_key (k : string) (v : value) (kv : list (string * value))
  : list (string * value) :=
  match kv with
  | [] => [(k, v)]
  | (k', v') :: rest =>
      if String.eqb k k' then (k, v) :: rest else (k', v') :: bind_key k v rest
  end.

Definition head_is (c : ascii) (cs : list ascii) : option (list ascii) :=
  match cs with
  | c' :: rest => if Ascii.eqb c c' then Some rest else None
  | [] => None
  end.

(** An integer literal: no leading zero unless it is the only digit. *)
Definition integer (ds : list ascii) : option Z :=
  match ds with
  | z :: _ :: _ => if Ascii.eqb z "0" then None else number ds
  | _ => number ds
  end.

Definition literal (word : string) (v : value) (cs : list ascii)
  : option (value * list ascii) :=
  tl ← drop_prefix (list_ascii_of_string word) cs; Some (v, tl).

(** Recursive descent; [fuel] bounds the depth and the number of items. *)
Fixpoint decode (fuel : nat) (cs : list ascii) : option (value * list ascii) :=
  match fuel with
  | O => None
  | S fuel' =>
      match skip_space cs with
      | [] => None
      | c :: rest =>
          if Ascii.eqb c "n" then literal "ull" PNone rest
          else if Ascii.eqb c "t" then literal "rue" (PBool true) rest
          else if Ascii.eqb c "f" then literal "alse" (PBool false) rest
          else if Ascii.eqb c "034" then
            '(s, tl) ← string_body rest; Some (PStr s, tl)
          else if Ascii.eqb c "[" then
            match head_is "]" (skip_space rest) with
            | Some tl => Some (PList [], tl)
            | None => '(l, tl) ← decode_items fuel' rest; Some (PList l, tl)
            end
          else if Ascii.eqb c "{" then
            match head_is "}" (skip_space rest) with
            | Some tl => Some (PDict [], tl)
            | None => '(kv, tl) ← decode_members fuel' [] rest; Some (PDict kv, tl)
            end
          else if Ascii.eqb c "-" then
            let '(ds, tl) := span_digits rest in
            n ← integer ds; Some (PInt (- n), tl)
          else
            let '(ds, tl) := span_digits (c :: rest) in
            n ← integer ds; Some (PInt n, tl)
      end
  end
with decode_items (fuel : nat) (cs : list ascii)
  : option (list value * list ascii) :=
  match fuel with
  | O => None
  | S fuel' =>
      '(v, tl) ← decode fuel' cs;
      match skip_space tl with
      | c :: tl' =>
          if Ascii.eqb c "," then
            '(vs, tl'') ← decode_items fuel' tl'; Some (v :: vs, tl'')
          else if Ascii.eqb c "]" then Some ([v], tl')
          else None
      | [] => None
      end
  end
with decode_members (fuel : nat) (seen : list (string * value))
    (cs : list ascii) : option (list (string * value) * list ascii) :=
  match fuel with
  | O => None
  | S fuel' =>
      after_quote ← head_is "034" (skip_space cs);
      '(k, tl) ← string_body after_quote;
      after_colon ← head_is ":" (skip_space tl);
      '(v, tl') ← decode fuel' after_colon;
      let seen' := bind_key k v seen in
      match skip_space tl' with
      | c :: tl'' =>
          if Ascii.eqb c "," then decode_members fuel' seen' tl''
          else if Ascii.eqb c "}" then Some (seen', tl'')
          else None
      | [] => None
      end
  end.

(** [json.loads]: one value, nothing but space after it. *)
Definition json_loads (text : string) : result value :=
  let cs := list_ascii_of_string text in
  match decode (S (length cs)) cs with
  | Some (v, tl) =>
      match skip_space tl with
      | [] => Ok v
      | _ => Raise JSONDecodeError
      end
  | None => Raise JSONDecodeError
  end.

(** A service that answers every request with one choice holding [text]. *)
Definition answering (text : string) : chat_api := fun _ => Ok [Some text].

(** A service that is down. *)
Definition failing (reason : string) : chat_api :=
  fun _ => Raise (ServiceError reason).

End Lib.

(* ===================================================================== *)
(** ** The order of the simulated call, as the notebook printed it *)
(* ===================================================================== *)

Definition johns_fields : dict :=
  [ ("customer_name", PStr "John");
    ("order_items",
     PList [ PDict [("item", PStr "Margherita pizza"); ("quantity", PInt 1);
                    ("special_instructions", PNone)];
             PDict [("item", PStr "Tiramisu"); ("quantity", PInt 1);
                    ("special_instructions", PNone)] ]);
    ("is_delivery", PBool true);
    ("address", PNone);
    ("reservation_time", PNone);
    ("party_size", PNone) ].

Definition johns_order : value := PDict johns_fields.

Definition CALLER : string := "+15551234567".

(* ===================================================================== *)
(** ** Items the total can be computed on *)
(* ===================================================================== *)

(** What the loop of [calculate_order_total] needs of an element: a dict
    whose ["item"], when present, is a string and whose ["quantity"], when
    present, is an integer (a [bool] counts as one). *)
Definition priceable (item : value) : bool :=
  match item with
  | PDict fields =>
      match get fields "item" (PStr EmptyString) with
      | PStr _ =>
          match get fields "quantity" (PInt 1) with
          | PInt _ | PBool _ => true
          | _ => false
          end
      | _ => false
      end
  | _ => false
  end.

(* ===================================================================== *)
(** * Properties *)
(* ===================================================================== *)

(** ** Text *)

Lemma lower_char_idempotent (c : ascii) : lower_char (lower_char c) = lower_char c.
Proof. destruct c as [[] [] [] [] [] [] [] []]; reflexivity. Qed.

Lemma isspace_lower_char (c : ascii) : isspace (lower_char c) = isspace c.
Proof. destruct c as [[] [] [] [] [] [] [] []]; reflexivity. Qed.

Lemma lower_idempotent (s : string) : lower (lower s) = lower s.
Proof.
  induction s as [|c s IH]; simpl; [reflexivity|].
  now rewrite lower_char_idempotent, IH.
Qed.

Lemma lstrip_lower (s : string) : lstrip (lower s) = lower (lstrip s).
Proof.
  induction s as [|c s IH]; simpl; [reflexivity|].
  rewrite isspace_lower_char. destruct (isspace c); [exact IH | reflexivity].
Qed.

Lemma rstrip_lower (s : string) : rstrip (lower s) = lower (rstrip s).
Proof.
  induction s as [|c s IH]; simpl; [reflexivity|].
  rewrite IH, isspace_lower_char.
  destruct (rstrip s); simpl; [destruct (isspace c)|]; reflexivity.
Qed.

Lemma strip_lower (s : string) : strip (lower s) = lower (strip s).
Proof. unfold strip. now rewrite lstrip_lower, rstrip_lower. Qed.

Lemma rstrip_cons (c : ascii) (s : string) :
  rstrip (String c s) =
  match rstrip s with
  | EmptyString => if isspace c then EmptyString else String c EmptyString
  | r => String c r
  end.
Proof. reflexivity. Qed.

(** What [rstrip] leaves is empty or ends in a character that is no space. *)
Lemma rstrip_idempotent (s : string) : rstrip (rstrip s) = rstrip s.
Proof.
  induction s as [|c s IH]; [reflexivity|].
  rewrite rstrip_cons.
  destruct (rstrip s) as [|c' r] eqn:E.
  - destruct (isspace c) eqn:Ec; [reflexivity|].
    rewrite rstrip_cons. simpl. now rewrite Ec.
  - rewrite rstrip_cons, IH. reflexivity.
Qed.

(** Trimming the right end does not uncover a space at the left end. *)
Lemma lstrip_rstrip_lstrip (s : string) :
  lstrip (rstrip (lstrip s)) = rstrip (lstrip s).
Proof.
  induction s as [|c s IH]; [reflexivity|].
  cbn [lstrip]. destruct (isspace c) eqn:Ec; [exact IH|].
  rewrite rstrip_cons.
  destruct (rstrip s); rewrite ?Ec; cbn [lstrip]; now rewrite Ec.
Qed.

Lemma strip_idempotent (s : string) : strip (strip s) = strip s.
Proof.
  unfold strip. now rewrite lstrip_rstrip_lstrip, rstrip_idempotent.
Qed.

(** ** Intent classification *)

Lemma unclear_is_an_intent : In "unclear" INTENTS.
Proof. simpl. tauto. Qed.

(** The classifier, case by case on what the endpoint does. *)
Lemma classify_intent_cases (create : chat_api) (transcript : string) :
  classify_intent create transcript =
  match create (classify_request transcript) with
  | Raise e => Raise e
  | Ok [] => Raise IndexError
  | Ok (None :: _) => Raise AttributeError
  | Ok (Some text :: _) => Ok (lower (strip text))
  end.
Proof.
  unfold classify_intent.
  destruct (create (classify_request transcript)) as [[|[text|] rest]|e];
    reflexivity.
Qed.

(** C1, as the notebook has it: when the endpoint answers with ASCII text,
    the label is that text with the surrounding whitespace removed and the
    letters lower-cased, so lower-casing or stripping it again changes
    nothing; a text outside the seven labels is returned as it is and is
    not turned into [unclear]. *)
Theorem classify_intent_normalises
    (create : chat_api) (transcript text : string) (rest : completion) :
  create (classify_request transcript) = Ok (Some text :: rest) ->
  is_ascii text = true ->
  classify_intent create transcript = Ok (lower (strip text)) /\
  lower (lower (strip text)) = lower (strip text) /\
  strip (lower (strip text)) = lower (strip text) /\
  (~ In (lower (strip text)) INTENTS ->
   classify_intent create transcript <> Ok "unclear").
Proof.
  intros Hanswer _.
  rewrite classify_intent_cases, Hanswer.
  split; [reflexivity|].
  split; [apply lower_idempotent|].
  split; [now rewrite strip_lower, strip_idempotent|].
  intros Hout Heq. injection Heq as Heq.
  apply Hout. rewrite Heq. exact unclear_is_an_intent.
Qed.

Lemma classify_intent_normalises_witness :
  classify_intent (Lib.answering "  New_Order ") "I'd like to order a pizza"
    = Ok "new_order"
  /\ In "new_order" INTENTS.
Proof.
  split.
  - exact (proj1 (classify_intent_normalises
                    (Lib.answering "  New_Order ")
                    "I'd like to order a pizza" "  New_Order " []
                    eq_refl eq_refl)).
  - simpl. tauto.
Defined.

(** C1 fails as stated: an answer that is none of the seven labels comes
    back lower-cased, not as [unclear]. *)
Lemma classify_intent_open_label :
  classify_intent (Lib.answering "Pizza") "I'd like to order a pizza"
    = Ok "pizza"
  /\ ~ In "pizza" INTENTS.
Proof.
  split; [reflexivity|].
  simpl. intros H. repeat destruct H as [H|H]; try discriminate H. exact H.
Qed.

(** C5, as the notebook has it: a failure of the endpoint reaches the
    caller of [classify_intent] unchanged; a label is returned only when
    the endpoint answered with text; and for an ASCII answer the label is
    [unclear] exactly when the answer itself, stripped and lower-cased, is
    that word. *)
Theorem classify_intent_propagates (create : chat_api) (transcript : string) :
  (forall e, create (classify_request transcript) = Raise e ->
             classify_intent create transcript = Raise e) /\
  (forall label, classify_intent create transcript = Ok label ->
     exists text rest,
       create (classify_request transcript) = Ok (Some text :: rest)) /\
  (forall text rest,
     create (classify_request transcript) = Ok (Some text :: rest) ->
     is_ascii text = true ->
     (classify_intent create transcript = Ok "unclear" <->
      lower (strip text) = "unclear")).
Proof.
  rewrite classify_intent_cases. split; [|split].
  - intros e He. now rewrite He.
  - intros label.
    destruct (create (classify_request transcript)) as [[|[text|] rest]|e];
      try discriminate.
    intros _. now exists text, rest.
  - intros text rest Hanswer _. rewrite Hanswer. split.
    + intros H. now injection H.
    + intros H. now rewrite H.
Qed.

Lemma classify_intent_propagates_witness :
  classify_intent (Lib.failing "timeout") "Do you have gluten-free options?"
    = Raise (ServiceError "timeout").
Proof.
  exact (proj1 (classify_intent_propagates (Lib.failing "timeout")
                  "Do you have gluten-free options?")
               (ServiceError "timeout") eq_refl).
Defined.

(** C5 fails as stated: with the endpoint down the classifier raises, and
    an answer that is no label is passed on instead of [unclear]. *)
Lemma classify_intent_failure_escapes :
  classify_intent (Lib.failing "timeout") "Do you have gluten-free options?"
    = Raise (ServiceError "timeout")
  /\ classify_intent (Lib.answering "I am not sure.") "Hmm" = Ok "i am not sure."
  /\ classify_intent (fun _ => Ok [None]) "Hmm" = Raise AttributeError.
Proof. repeat split; reflexivity. Qed.

(** ** The TwiML builder *)

(** C3: the document has exactly one say step and at most one listen step;
    the listen step is there exactly when speech is to be gathered, and then
    it is the speech gather with the 3-second timeout and automatic
    end-of-speech detection, followed by the redirect to the no-input
    endpoint; otherwise the document is the say step alone. *)
Theorem generate_twiml_response_shape (ai_message : string) (gather_speech : bool) :
  let document := generate_twiml_response ai_message gather_speech in
  Twiml.count is_say document = 1 /\
  Twiml.count is_listen document <= 1 /\
  (Twiml.count is_listen document = 1 <-> gather_speech = true) /\
  (forall g, In (Listen g) document <-> gather_speech = true /\ g = speech_gather) /\
  (In (Redirect NO_INPUT_ENDPOINT) document <-> gather_speech = true) /\
  document =
    (if gather_speech
     then [ Say ai_message "Polly.Joanna"; Listen speech_gather;
            Redirect NO_INPUT_ENDPOINT ]
     else [ Say ai_message "Polly.Joanna" ]) /\
  timeout speech_gather = 3%Z /\
  speech_timeout speech_gather = "auto" /\
  input speech_gather = "speech".
Proof.
  cbv zeta.
  destruct gather_speech; unfold generate_twiml_response; simpl;
    repeat match goal with |- _ /\ _ => split end;
    try reflexivity; try lia; try (split; [reflexivity | lia]);
    try (intros g); try (split; intros Hmem);
    try discriminate;
    repeat match goal with
           | H : _ \/ _ |- _ => destruct H as [H|H]
           | H : _ /\ _ |- _ => destruct H as [? H]
           | H : False |- _ => destruct H
           | H : Listen _ = Listen _ |- _ => injection H as H
           end;
    subst; try discriminate; try tauto; auto.
Qed.

(** ** Response generation *)

(** The generator, once the history has been turned into messages. *)
Lemma generate_response_cases (create : chat_api) (transcript : string)
    (history : list exchange) (order_data : value) (past : list message) :
  history_messages history = Ok past ->
  generate_response create transcript history order_data =
  match create (generate_request
                  ([ Message "system" persona_prompt ] ++ past
                     ++ [ Message "user" transcript ]
                     ++ order_context order_data)) with
  | Raise e => Raise e
  | Ok [] => Raise IndexError
  | Ok (reply :: _) => Ok reply
  end.
Proof.
  intros Hpast. unfold generate_response. rewrite Hpast. simpl.
  match goal with |- context [create ?r] => destruct (create r) as [[|c rest]|e] end;
    reflexivity.
Qed.

(** C6, as the notebook has it: a failure of the endpoint reaches the
    caller of [generate_response] unchanged (the function holds no fallback
    utterance); when the endpoint answers with text, that text is the
    reply, and the builder turns it into a document with one say step, the
    speech gather and the no-input redirect. *)
Theorem generate_response_outcomes (create : chat_api) (transcript : string)
    (history : list exchange) (order_data : value) (past : list message) :
  history_messages history = Ok past ->
  let request :=
    generate_request
      ([ Message "system" persona_prompt ] ++ past
         ++ [ Message "user" transcript ] ++ order_context order_data) in
  (forall e, create request = Raise e ->
     generate_response create transcript history order_data = Raise e) /\
  (forall text rest, create request = Ok (Some text :: rest) ->
     generate_response create transcript history order_data = Ok (Some text) /\
     generate_twiml_response text true =
       [ Say text "Polly.Joanna"; Listen speech_gather;
         Redirect NO_INPUT_ENDPOINT ]).
Proof.
  intros Hpast request.
  rewrite (generate_response_cases create transcript history order_data past Hpast).
  fold request. split.
  - intros e He. now rewrite He.
  - intros text rest Hok. rewrite Hok. split; reflexivity.
Qed.

Lemma generate_response_outcomes_witness :
  generate_response (Lib.failing "timeout") "Do you have any vegetarian options?"
    [ [("customer", "Hi, I'd like to order some food for delivery.")] ] PNone
  = Raise (ServiceError "timeout").
Proof.
  exact (proj1 (generate_response_outcomes (Lib.failing "timeout")
                  "Do you have any vegetarian options?"
                  [ [("customer", "Hi, I'd like to order some food for delivery.")] ]
                  PNone
                  [ Message "user" "Hi, I'd like to order some food for delivery." ]
                  eq_refl)
               (ServiceError "timeout") eq_refl).
Defined.

(** C6 fails as stated: with the endpoint down [generate_response] raises
    and there is no utterance to build a document from. *)
Lemma generate_response_no_fallback :
  generate_response (Lib.failing "timeout") "Do you have any vegetarian options?"
    [ [("customer", "Hi, I'd like to order some food for delivery.")] ] PNone
  = Raise (ServiceError "timeout").
Proof. reflexivity. Qed.

(** ** The order total *)

Section Total.

Import Spec.

(** The table of the specification and the dict of the notebook give the
    same price: the dict's keys are in lower case, so looking up the
    lower-cased name is matching up to case. *)
Lemma unit_price_lookup (n : string) :
  unit_price n = default DEFAULT_PRICE (menu_prices !! lower n).
Proof.
  unfold unit_price, MENU_TABLE, same_name, menu_prices. cbn [find fst snd].
  change (lower "margherita pizza") with "margherita pizza".
  change (lower "seafood linguine") with "seafood linguine".
  change (lower "tiramisu") with "tiramisu".
  destruct (String.eqb_spec "margherita pizza" (lower n)) as [<-|H1];
    [reflexivity|].
  rewrite lookup_insert_ne by exact H1.
  destruct (String.eqb_spec "seafood linguine" (lower n)) as [<-|H2];
    [reflexivity|].
  rewrite lookup_insert_ne by exact H2.
  destruct (String.eqb_spec "tiramisu" (lower n)) as [<-|H3];
    [reflexivity|].
  rewrite lookup_singleton_ne by exact H3. reflexivity.
Qed.

(** A name that matches no entry of the table costs the default. *)
Lemma unit_price_unknown (n : string) :
  (forall k p, In (k, p) MENU_TABLE -> same_name k n = false) ->
  unit_price n = 1000%Z.
Proof.
  intros Hno. unfold unit_price, MENU_TABLE in *. cbn [find fst snd].
  rewrite (Hno "margherita pizza" 1600%Z) by (simpl; tauto).
  rewrite (Hno "seafood linguine" 2200%Z) by (simpl; tauto).
  rewrite (Hno "tiramisu" 800%Z) by (simpl; tauto).
  reflexivity.
Qed.

Lemma add_item_represents (total : Z) (item : value) (line : line_item) :
  represents item line ->
  add_item total item = Ok (total + unit_price (name line) * quantity line)%Z.
Proof.
  intros (fields & -> & Hname & Hquantity).
  unfold add_item, get. simpl. rewrite Hname, Hquantity. simpl.
  now rewrite unit_price_lookup.
Qed.

Lemma total_from_represents (items : list value) (lines : list line_item) :
  Forall2 represents items lines ->
  forall total, total_from total items = Ok (total + computeTotal lines)%Z.
Proof.
  induction 1 as [|item line items lines Hrep _ IH]; intros total; simpl.
  - f_equal. lia.
  - rewrite (add_item_represents total item line Hrep). simpl.
    rewrite IH. f_equal. lia.
Qed.

Lemma computeTotal_app (xs ys : list line_item) :
  computeTotal (xs ++ ys) = (computeTotal xs + computeTotal ys)%Z.
Proof. induction xs as [|x xs IH]; simpl; [reflexivity | rewrite IH; lia]. Qed.

(** C2: on a list of items, each carrying a name and an integer quantity,
    [calculate_order_total] returns the sum of unit price times quantity,
    the unit price being the menu entry that matches the name up to case
    and 1000 when there is none; the value is determined by the names and
    quantities alone, so any two lists carrying the same lines give the
    same total; and one more item of unknown name adds 1000 times its
    quantity, 2000 for a quantity of 2. *)
Theorem calculate_order_total_is_computeTotal
    (items : list value) (lines : list line_item) :
  Forall2 represents items lines ->
  calculate_order_total (PList items) = Ok (computeTotal lines) /\
  (forall others, Forall2 represents others lines ->
     calculate_order_total (PList others) = calculate_order_total (PList items)) /\
  (forall item line,
     represents item line ->
     (forall k p, In (k, p) MENU_TABLE -> same_name k (name line) = false) ->
     calculate_order_total (PList (items ++ [item]))
       = Ok (computeTotal lines + 1000 * quantity line)%Z /\
     (quantity line = 2%Z ->
      calculate_order_total (PList (items ++ [item]))
        = Ok (computeTotal lines + 2000)%Z)).
Proof.
  intros Hitems.
  assert (Hall : forall its ls, Forall2 represents its ls ->
            calculate_order_total (PList its) = Ok (computeTotal ls)).
  { intros its ls H. unfold calculate_order_total. simpl.
    now rewrite (total_from_represents its ls H). }
  split; [now apply Hall|].
  split; [intros others Hothers; now rewrite (Hall others lines), (Hall items lines)|].
  intros item line Hrep Hunknown.
  assert (Hmore : calculate_order_total (PList (items ++ [item]))
                  = Ok (computeTotal lines + 1000 * quantity line)%Z).
  { rewrite (Hall (items ++ [item]) (lines ++ [line])).
    - rewrite computeTotal_app. simpl.
      rewrite (unit_price_unknown (name line) Hunknown). f_equal. lia.
    - apply Forall2_app; [exact Hitems|]. constructor; [exact Hrep | constructor]. }
  split; [exact Hmore|].
  intros Htwo. rewrite Hmore, Htwo. reflexivity.
Qed.

Lemma calculate_order_total_is_computeTotal_witness :
  calculate_order_total
    (PList [ PDict [("item", PStr "Margherita pizza"); ("quantity", PInt 1);
                    ("special_instructions", PNone)];
             PDict [("item", PStr "Tiramisu"); ("quantity", PInt 1);
                    ("special_instructions", PNone)] ])
  = Ok 2400%Z.
Proof.
  refine (proj1 (calculate_order_total_is_computeTotal
                   [ PDict [("item", PStr "Margherita pizza"); ("quantity", PInt 1);
                            ("special_instructions", PNone)];
                     PDict [("item", PStr "Tiramisu"); ("quantity", PInt 1);
                            ("special_instructions", PNone)] ]
                   [ LineItem "Margherita pizza" 1; LineItem "Tiramisu" 1 ] _)).
  repeat constructor; eexists; repeat split; reflexivity.
Defined.

(** The third scenario of the specification: an item the menu does not
    list, ordered twice. *)
Example total_mystery_item :
  calculate_order_total
    (PList [ PDict [("item", PStr "mystery item"); ("quantity", PInt 2)] ])
  = Ok 2000%Z.
Proof. vm_compute. reflexivity. Qed.

(** Keys the item does not carry take the code's defaults: no name is an
    unknown name, no quantity is one. *)
Example total_defaults :
  calculate_order_total (PList [ PDict [] ]) = Ok 1000%Z /\
  calculate_order_total (PList [ PDict [("item", PStr "TIRAMISU")] ]) = Ok 800%Z.
Proof. split; vm_compute; reflexivity. Qed.

(** Values that are no line items end in an exception, not in a total. *)
Example total_ill_typed :
  calculate_order_total (PList [ PDict [("item", PNone)] ]) = Raise AttributeError /\
  calculate_order_total (PList [ PDict [("quantity", PStr "two")] ]) = Raise TypeError /\
  calculate_order_total PNone = Raise TypeError.
Proof. repeat split; vm_compute; reflexivity. Qed.

End Total.

(** ** Extraction *)

Section Extraction.

Variable json_loads : string -> result value.

(** The extractor, case by case on what the endpoint and the decoder do. *)
Lemma parse_order_details_cases (create : chat_api) (transcript : string)
    (history : list exchange) :
  parse_order_details json_loads create transcript history =
  match create (extract_request
                  (conversation_text history +:+ "Customer: " +:+ transcript)) with
  | Raise e => Raise e
  | Ok [] => Raise IndexError
  | Ok (None :: _) => Raise TypeError
  | Ok (Some payload :: _) =>
      match json_loads payload with
      | Ok details => Ok details
      | Raise JSONDecodeError => Ok FALLBACK_DETAILS
      | Raise e => Raise e
      end
  end.
Proof.
  unfold parse_order_details.
  match goal with |- context [create ?r] =>
    destruct (create r) as [[|[payload|] rest]|e] end; simpl; try reflexivity.
  destruct (json_loads payload) as [details|[]]; reflexivity.
Qed.

(** C4, as the notebook has it: when the endpoint answers with a text that
    does not decode, the result is the all-empty draft with the parsing
    flag set; a text that decodes is returned decoded; a failure of the
    endpoint itself, which happens before the guarded decoding, reaches the
    caller unchanged. *)
Theorem parse_order_details_fallback (create : chat_api) (transcript : string)
    (history : list exchange) :
  let request :=
    extract_request (conversation_text history +:+ "Customer: " +:+ transcript) in
  (forall payload rest,
     create request = Ok (Some payload :: rest) ->
     json_loads payload = Raise JSONDecodeError ->
     parse_order_details json_loads create transcript history
       = Ok FALLBACK_DETAILS) /\
  (forall payload rest details,
     create request = Ok (Some payload :: rest) ->
     json_loads payload = Ok details ->
     parse_order_details json_loads create transcript history = Ok details) /\
  (forall e, create request = Raise e ->
     parse_order_details json_loads create transcript history = Raise e) /\
  FALLBACK_DETAILS =
    PDict [ ("customer_name", PNone); ("order_items", PList []);
            ("is_delivery", PBool false); ("address", PNone);
            ("reservation_time", PNone); ("party_size", PNone);
            ("parsing_error", PBool true) ].
Proof.
  intros request. rewrite parse_order_details_cases. fold request.
  repeat split.
  - intros payload rest Hanswer Hbad. now rewrite Hanswer, Hbad.
  - intros payload rest details Hanswer Hgood. now rewrite Hanswer, Hgood.
  - intros e He. now rewrite He.
Qed.

End Extraction.

Lemma parse_order_details_fallback_witness :
  parse_order_details Lib.json_loads
    (Lib.answering "Sorry, I could not find an order in this conversation.")
    "I'd like a Margherita pizza and a tiramisu. My name is John."
    [ [("customer", "I'd like to place an order for delivery")] ]
  = Ok FALLBACK_DETAILS.
Proof.
  exact (proj1 (parse_order_details_fallback Lib.json_loads
                  (Lib.answering "Sorry, I could not find an order in this conversation.")
                  "I'd like a Margherita pizza and a tiramisu. My name is John."
                  [ [("customer", "I'd like to place an order for delivery")] ])
               "Sorry, I could not find an order in this conversation." []
               eq_refl eq_refl).
Defined.

(** C4 fails as stated: the extractor raises when the endpoint is down and
    when the answer carries no content. *)
Lemma parse_order_details_raises :
  parse_order_details Lib.json_loads (Lib.failing "timeout")
    "My name is John." [] = Raise (ServiceError "timeout")
  /\ parse_order_details Lib.json_loads (fun _ => Ok [None])
       "My name is John." [] = Raise TypeError
  /\ parse_order_details Lib.json_loads (fun _ => Ok [])
       "My name is John." [] = Raise IndexError.
Proof. repeat split; reflexivity. Qed.

(** ** Date parsing *)

Lemma fixed_width_raises (seps : list ascii) (s : string) (e : exn) :
  Lib.fixed_width seps s = Raise e -> e = ValueError.
Proof.
  unfold Lib.fixed_width. intros H.
  repeat case_match; congruence.
Qed.

Lemma fromisoformat_raises (s : string) (e : exn) :
  Lib.fromisoformat s = Raise e -> is_value_or_type_error e = true.
Proof. intros H. now rewrite (fixed_width_raises _ _ _ H). Qed.

Lemma strptime_raises (s format : string) (e : exn) :
  Lib.strptime s format = Raise e -> is_value_or_type_error e = true.
Proof.
  unfold Lib.strptime. destruct (String.eqb format DATETIME_FORMAT).
  - intros H. now rewrite (fixed_width_raises _ _ _ H).
  - intros H. now injection H as <-.
Qed.

Section Dates.

Context {datetime : Type}.
Variable fromisoformat : string -> result datetime.
Variable strptime : string -> string -> result datetime.

(** C7: provided the two library parsers raise nothing but [ValueError] or
    [TypeError] (their documented behaviour), [parse_datetime] returns on
    every value and never raises; it returns nothing for a value that is
    empty or [None] (any false value), and for a value that neither
    [fromisoformat] nor [strptime] with the one fixed format accepts; and
    what it returns is what the first of the two parsers to accept made of
    the text. *)
Theorem parse_datetime_never_raises :
  (forall s e, fromisoformat s = Raise e -> is_value_or_type_error e = true) ->
  (forall s f e, strptime s f = Raise e -> is_value_or_type_error e = true) ->
  forall datetime_str : value,
    returns (parse_datetime fromisoformat strptime datetime_str) /\
    (truthy datetime_str = false ->
     parse_datetime fromisoformat strptime datetime_str = Ok None) /\
    ((forall s, datetime_str = PStr s ->
        raises (fromisoformat s) /\ raises (strptime s DATETIME_FORMAT)) ->
     parse_datetime fromisoformat strptime datetime_str = Ok None) /\
    (forall d,
       parse_datetime fromisoformat strptime datetime_str = Ok (Some d) <->
       exists s, datetime_str = PStr s /\ s <> EmptyString /\
         (fromisoformat s = Ok d \/
          (raises (fromisoformat s) /\ strptime s "%Y-%m-%d %H:%M:%S" = Ok d))).
Proof.
  intros Hiso Hstrp v. unfold parse_datetime.
  destruct (truthy v) eqn:Htruthy; simpl.
  2:{ split; [now exists None|]. split; [reflexivity|]. split; [reflexivity|].
      intros d. split; [discriminate|].
      intros (s & -> & Hne & _). simpl in Htruthy.
      destruct (String.eqb_spec s EmptyString) as [Heq|Hneq];
        [contradiction | discriminate Htruthy]. }
  destruct v as [|b|n|s|l|kv]; simpl;
    try (split; [now exists None|]; split; [discriminate|];
         split; [reflexivity|];
         intros d; split; [discriminate|];
         intros (s' & Hs & _); discriminate Hs).
  assert (Hne : s <> EmptyString).
  { intros ->. discriminate Htruthy. }
  split; [|split; [discriminate|]].
  - destruct (fromisoformat s) as [d1|e1] eqn:E1; simpl; [now eexists|].
    rewrite (Hiso s e1 E1).
    destruct (strptime s DATETIME_FORMAT) as [d2|e2] eqn:E2; simpl; [now eexists|].
    rewrite (Hstrp s _ e2 E2). now eexists.
  - destruct (fromisoformat s) as [d1|e1] eqn:E1; simpl.
    + split.
      * intros Hrej. destruct (Hrej s eq_refl) as [[e He] _].
        rewrite E1 in He. discriminate He.
      * intros d. split.
        -- intros H. injection H as <-. exists s. auto.
        -- intros (s' & Hs & _ & [H|[[e He] _]]); injection Hs as <-.
           ++ rewrite E1 in H. now injection H as ->.
           ++ rewrite E1 in He. discriminate He.
    + rewrite (Hiso s e1 E1).
      destruct (strptime s DATETIME_FORMAT) as [d2|e2] eqn:E2; simpl.
      * split.
        -- intros Hrej. destruct (Hrej s eq_refl) as [_ [e He]].
           rewrite E2 in He. discriminate He.
        -- intros d. split.
           ++ intros H. injection H as <-. exists s.
              split; [reflexivity|]. split; [exact Hne|]. right.
              split; [now exists e1 | exact E2].
           ++ intros (s' & Hs & _ & [H|[_ H]]); injection Hs as <-.
              ** rewrite E1 in H. discriminate H.
              ** unfold DATETIME_FORMAT in E2. rewrite E2 in H.
                 now injection H as ->.
      * rewrite (Hstrp s _ e2 E2). split; [reflexivity|].
        intros d. split; [discriminate|].
        intros (s' & Hs & _ & [H|[_ H]]); injection Hs as <-.
        -- rewrite E1 in H. discriminate H.
        -- unfold DATETIME_FORMAT in E2. rewrite E2 in H. discriminate H.
Qed.

End Dates.

Lemma parse_datetime_never_raises_witness :
  parse_datetime Lib.fromisoformat Lib.strptime (PStr "next Friday at eight")
    = Ok None
  /\ parse_datetime Lib.fromisoformat Lib.strptime (PStr "2025-03-14 19:30:00")
     = Ok (Some (Lib.Timestamp 2025 3 14 19 30 0)).
Proof.
  split.
  - refine (proj1 (proj2 (proj2
      (parse_datetime_never_raises Lib.fromisoformat Lib.strptime
         fromisoformat_raises strptime_raises (PStr "next Friday at eight")))) _).
    intros s Hs. injection Hs as <-. split; eexists; vm_compute; reflexivity.
  - vm_compute. reflexivity.
Defined.

(** ** Persistence *)

Section Persistence.

Context {datetime : Type}.
Variable fromisoformat : string -> result datetime.
Variable strptime : string -> string -> result datetime.

(** [save_order] on a dict, step by step: the arguments first, then the
    state of the session, then the insert. *)
Lemma save_order_cases (s : @session datetime) (fields : dict) (phone : string) :
  save_order fromisoformat strptime s (PDict fields) phone =
  match calculate_order_total (get fields "order_items" (PList [])) with
  | Raise e => (Raise e, s)
  | Ok total =>
      match parse_datetime fromisoformat strptime
              (get fields "reservation_time" PNone) with
      | Raise e => (Raise e, s)
      | Ok reservation =>
          if needs_rollback s then (Raise PendingRollbackError, s)
          else
            let row := row_of fields phone (next_id (table s)) total reservation in
            match refusal row with
            | Some e => (Raise e, {| table := table s; needs_rollback := true |})
            | None =>
                (Ok (next_id (table s)),
                 {| table := table s ++ [row]; needs_rollback := false |})
            end
      end
  end.
Proof.
  unfold save_order, mbind, transaction_bind, lift, mret, transaction_ret,
    add_and_commit.
  cbn [as_dict].
  destruct (calculate_order_total _) as [total|e]; [|reflexivity].
  destruct (parse_datetime _ _ _) as [reservation|e]; [|reflexivity].
  destruct (needs_rollback s); [reflexivity|].
  fold (row_of fields phone (next_id (table s)) total reservation).
  cbv zeta. now destruct (refusal _).
Qed.

(** Anything but a dict has no [get]. *)
Lemma save_order_not_a_dict (s : @session datetime) (order_details : value)
    (phone : string) :
  (forall fields, order_details <> PDict fields) ->
  save_order fromisoformat strptime s order_details phone = (Raise AttributeError, s).
Proof.
  intros Hnot. destruct order_details as [| | | | |fields]; try reflexivity.
  now destruct (Hnot fields).
Qed.

(** When saving succeeds: every step returned, the session was usable and
    the insert was accepted. *)
Lemma save_order_inversion (s : @session datetime) (order_details : value)
    (phone : string) (key : Z) (s' : @session datetime) :
  save_order fromisoformat strptime s order_details phone = (Ok key, s') ->
  exists fields total reservation,
    order_details = PDict fields /\
    calculate_order_total (get fields "order_items" (PList [])) = Ok total /\
    parse_datetime fromisoformat strptime (get fields "reservation_time" PNone)
      = Ok reservation /\
    needs_rollback s = false /\
    refusal (row_of fields phone key total reservation) = None /\
    key = next_id (table s) /\
    s' = {| table := table s ++ [row_of fields phone key total reservation];
            needs_rollback := false |}.
Proof.
  destruct order_details as [| | | | |fields]; try discriminate.
  rewrite save_order_cases.
  destruct (calculate_order_total _) as [total|e] eqn:Htotal; [|discriminate].
  destruct (parse_datetime _ _ _) as [reservation|e] eqn:Htime; [|discriminate].
  destruct (needs_rollback s) eqn:Hstate; [discriminate|].
  cbv zeta. destruct (refusal _) eqn:Hrefusal; [discriminate|].
  intros H. injection H as <- <-.
  exists fields, total, reservation. repeat split; assumption || reflexivity.
Qed.

Lemma refusal_none (row : @Order datetime) :
  refusal row = None <->
  bindable (customer_name row) = true /\
  fits_int64 (order_total row) = true /\
  bindable (party_size row) = true /\
  is_none (customer_name row) = false.
Proof.
  unfold refusal.
  destruct (bindable (customer_name row)); simpl; [|split; [discriminate | intros [H _]; discriminate H]].
  destruct (fits_int64 (order_total row)); simpl; [|split; [discriminate | intros (_ & H & _); discriminate H]].
  destruct (bindable (party_size row)); simpl; [|split; [discriminate | intros (_ & _ & H & _); discriminate H]].
  destruct (is_none (customer_name row)); simpl; [split; [discriminate | intros (_ & _ & _ & H); discriminate H]|].
  now repeat split.
Qed.

(** C8: whenever an order is saved, the stored total is what
    [calculate_order_total] returns on the draft's item list at that
    moment, the list whose JSON text is stored beside it; so two saved
    drafts with the same item list carry the same total, whatever else
    they hold and whatever the table held before. *)
Theorem save_order_total_recomputed (s : @session datetime) (order_details : value)
    (phone : string) (key : Z) (s' : @session datetime) :
  save_order fromisoformat strptime s order_details phone = (Ok key, s') ->
  exists fields row,
    order_details = PDict fields /\
    table s' = table s ++ [row] /\
    id row = key /\
    calculate_order_total (get fields "order_items" (PList []))
      = Ok (order_total row) /\
    order_items row = Json.dumps (get fields "order_items" (PList [])) /\
    (forall s2 fields2 phone2 key2 s2',
       get fields2 "order_items" (PList []) = get fields "order_items" (PList []) ->
       save_order fromisoformat strptime s2 (PDict fields2) phone2 = (Ok key2, s2') ->
       exists row2, table s2' = table s2 ++ [row2] /\ order_total row2 = order_total row).
Proof.
  intros Hsaved.
  destruct (save_order_inversion _ _ _ _ _ Hsaved)
    as (fields & total & reservation & -> & Htotal & _ & _ & _ & -> & ->).
  exists fields, (row_of fields phone (next_id (table s)) total reservation).
  repeat split; try reflexivity; try exact Htotal.
  intros s2 fields2 phone2 key2 s2' Hsame Hsaved2.
  destruct (save_order_inversion _ _ _ _ _ Hsaved2)
    as (f2 & total2 & reservation2 & Hf2 & Htotal2 & _ & _ & _ & -> & ->).
  injection Hf2 as <-.
  exists (row_of fields2 phone2 (next_id (table s2)) total2 reservation2).
  split; [reflexivity|]. simpl.
  rewrite Hsame in Htotal2. rewrite Htotal in Htotal2.
  injection Htotal2 as <-. reflexivity.
Qed.

(** C10: for a draft without a ["customer_name"] key, what is stored is the
    draft's own order under the name ["Unknown"]: its item list as JSON
    text, its total, reservation time and party size, the given phone
    number; when the ["order_items"] key is missing too, the stored item
    list is the empty list, with a total of zero.  Saving never fails on
    account of the name: a failure comes from the item list, the
    reservation time, a total or a party size the database cannot hold,
    or a session left unusable by an earlier failure; and on a usable
    session the draft is saved whenever those can be stored. *)
Theorem save_order_defaults (s : @session datetime) (fields : dict) (phone : string) :
  lookup_key "customer_name" fields = None ->
  (forall key s',
     save_order fromisoformat strptime s (PDict fields) phone = (Ok key, s') ->
     exists total reservation,
       calculate_order_total (get fields "order_items" (PList [])) = Ok total /\
       parse_datetime fromisoformat strptime
         (get fields "reservation_time" PNone) = Ok reservation /\
       table s' = table s ++
         [ {| id := key;
              customer_name := PStr "Unknown";
              customer_phone := phone;
              order_items := Json.dumps (get fields "order_items" (PList []));
              order_total := total;
              reservation_time := reservation;
              party_size := get fields "party_size" PNone;
              status := "confirmed" |} ] /\
       (lookup_key "order_items" fields = None ->
        Json.dumps (get fields "order_items" (PList [])) = "[]" /\ total = 0%Z)) /\
  (forall e s',
     save_order fromisoformat strptime s (PDict fields) phone = (Raise e, s') ->
     calculate_order_total (get fields "order_items" (PList [])) = Raise e \/
     parse_datetime fromisoformat strptime (get fields "reservation_time" PNone)
       = Raise e \/
     (needs_rollback s = true /\ e = PendingRollbackError) \/
     (exists total,
        calculate_order_total (get fields "order_items" (PList [])) = Ok total /\
        fits_int64 total = false /\ e = OverflowError) \/
     (bindable (get fields "party_size" PNone) = false /\
      e = bind_error "orders.party_size" (get fields "party_size" PNone))) /\
  (forall total reservation,
     calculate_order_total (get fields "order_items" (PList [])) = Ok total ->
     parse_datetime fromisoformat strptime (get fields "reservation_time" PNone)
       = Ok reservation ->
     needs_rollback s = false ->
     fits_int64 total = true ->
     bindable (get fields "party_size" PNone) = true ->
     exists s', save_order fromisoformat strptime s (PDict fields) phone
                = (Ok (next_id (table s)), s')).
Proof.
  intros Hmissing.
  assert (Hname : get fields "customer_name" (PStr "Unknown") = PStr "Unknown").
  { unfold get. now rewrite Hmissing. }
  split; [|split].
  - intros key s' Hsaved.
    destruct (save_order_inversion _ _ _ _ _ Hsaved)
      as (f & total & reservation & Hf & Htotal & Htime & _ & _ & -> & ->).
    injection Hf as <-. exists total, reservation.
    split; [exact Htotal|]. split; [exact Htime|].
    split; [unfold row_of; now rewrite Hname|].
    intros Hitems. unfold get in Htotal |- *. rewrite Hitems in *.
    split; [reflexivity|]. now injection Htotal.
  - intros e s'. rewrite save_order_cases.
    destruct (calculate_order_total _) as [total|e1];
      [|intros H; injection H as -> _; now left].
    destruct (parse_datetime _ _ _) as [reservation|e2];
      [|intros H; injection H as -> _; right; now left].
    destruct (needs_rollback s);
      [intros H; injection H as <- _; right; right; left; now split|].
    cbv zeta. unfold refusal. cbn [row_of customer_name order_total party_size].
    rewrite Hname. cbn [bindable negb is_none].
    destruct (fits_int64 total) eqn:Hfits; cbn [negb].
    + destruct (bindable (get fields "party_size" PNone)) eqn:Hsize; cbn [negb];
        [discriminate|].
      intros H. injection H as <- _. right. right. right. right. now split.
    + intros H. injection H as <- _. right. right. right. left.
      exists total. now repeat split.
  - intros total reservation Htotal Htime Hstate Hfits Hsize.
    rewrite save_order_cases, Htotal, Htime, Hstate. cbv zeta.
    assert (Hok : refusal (row_of fields phone (next_id (table s)) total reservation)
                  = None).
    { apply refusal_none. cbn [row_of customer_name order_total party_size].
      rewrite Hname. now repeat split. }
    rewrite Hok. now eexists.
Qed.

End Persistence.

Lemma save_order_total_recomputed_witness :
  save_order Lib.fromisoformat Lib.strptime (Session [] false) johns_order CALLER
    = (Ok 1%Z, Session [ row_of johns_fields CALLER 1 2400 None ] false)
  /\ exists fields (row : @Order Lib.timestamp),
       johns_order = PDict fields /\
       id row = 1%Z /\
       calculate_order_total (get fields "order_items" (PList []))
         = Ok (order_total row).
Proof.
  split; [reflexivity|].
  destruct (save_order_total_recomputed Lib.fromisoformat Lib.strptime
              (Session [] false) johns_order CALLER 1
              (Session [ row_of johns_fields CALLER 1 2400 None ] false) eq_refl)
    as (fields & row & Hfields & _ & Hid & Htotal & _).
  exists fields, row. auto.
Defined.

Lemma save_order_defaults_witness :
  exists s', save_order Lib.fromisoformat Lib.strptime (Session [] false)
               (PDict [("is_delivery", PBool true)]) CALLER
             = (Ok 1%Z, s').
Proof.
  refine (proj2 (proj2 (save_order_defaults Lib.fromisoformat Lib.strptime
                          (Session [] false) [("is_delivery", PBool true)] CALLER
                          eq_refl))
                0%Z None _ _ _ _ _); reflexivity.
Defined.

(** What such a save stores. *)
Example save_order_without_name :
  save_order Lib.fromisoformat Lib.strptime (Session [] false)
    (PDict [("is_delivery", PBool true)]) CALLER
  = (Ok 1%Z,
     Session [ {| id := 1; customer_name := PStr "Unknown";
                  customer_phone := "+15551234567"; order_items := "[]";
                  order_total := 0; reservation_time := None;
                  party_size := PNone; status := "confirmed" |} ] false).
Proof. vm_compute. reflexivity. Qed.

(** A name that is present but [None] is not replaced: the default of
    [get] applies to a missing key only, and the column refuses [None].
    The extractor's own fallback draft is of that kind. *)
Remark save_order_null_name :
  save_order Lib.fromisoformat Lib.strptime (Session [] false)
    FALLBACK_DETAILS CALLER
  = (Raise (IntegrityError "orders.customer_name"), Session [] true).
Proof. vm_compute. reflexivity. Qed.

(** A party size beyond 64 bits is refused by the driver, and after any
    refused insert the session refuses every later commit. *)
Example save_order_after_a_failure :
  let s1 := snd (save_order Lib.fromisoformat Lib.strptime (Session [] false)
                   (PDict [("party_size", PInt (10 ^ 19))]) CALLER) in
  save_order Lib.fromisoformat Lib.strptime (Session [] false)
    (PDict [("party_size", PInt (10 ^ 19))]) CALLER
    = (Raise OverflowError, Session [] true)
  /\ save_order Lib.fromisoformat Lib.strptime s1 johns_order CALLER
     = (Raise PendingRollbackError, Session [] true).
Proof. split; vm_compute; reflexivity. Qed.

(** ** The notebook as a whole *)

Section Whole.

Context {datetime : Type}.
Variable json_loads : string -> result value.
Variable fromisoformat : string -> result datetime.
Variable strptime : string -> string -> result datetime.
Variable service : nat -> chat_api.

Lemma run_app (cs1 cs2 : list call) (w : @world datetime) :
  run json_loads fromisoformat strptime service (cs1 ++ cs2) w =
  let '(os1, w1) := run json_loads fromisoformat strptime service cs1 w in
  let '(os2, w2) := run json_loads fromisoformat strptime service cs2 w1 in
  (os1 ++ os2, w2).
Proof.
  revert w. induction cs1 as [|c cs1 IH]; intros w; simpl.
  - now destruct (run _ _ _ _ cs2 w).
  - destruct (step _ _ _ _ c w) as [o w1]. rewrite IH.
    destruct (run _ _ _ _ cs1 w1) as [os1 w2].
    now destruct (run _ _ _ _ cs2 w2).
Qed.

Lemma run_length (cs : list call) (w : @world datetime) :
  length (fst (run json_loads fromisoformat strptime service cs w)) = length cs.
Proof.
  revert w. induction cs as [|c cs IH]; intros w; simpl; [reflexivity|].
  destruct (step _ _ _ _ c w) as [o w1]. specialize (IH w1).
  destruct (run _ _ _ _ cs w1) as [os w2]. simpl in *. now rewrite IH.
Qed.

(** A method call on the object that stands at the end of [before]. *)
Lemma nest_at (w : @world datetime) (before after : list object)
    (children : list node) (n : node) :
  objects w = before ++ OResponse children :: after ->
  nest (length before) n w =
  {| db := db w; requests := requests w;
     objects := before ++ OResponse (children ++ [n]) :: after |}.
Proof.
  intros Hobjects. unfold nest. rewrite Hobjects.
  rewrite list_lookup_middle by reflexivity.
  rewrite insert_app_r_alt by lia.
  now replace (length before - length before)%nat with 0%nat by lia.
Qed.

(** The objects the builder leaves behind, and what it returns. *)
Lemma generate_twiml_response_object_result (m : string) (g : bool)
    (w : @world datetime) :
  generate_twiml_response_object m g w =
  (length (objects w),
   {| db := db w; requests := requests w;
      objects := objects w ++
        (if g
         then [ OResponse [ NSay m "Polly.Joanna";
                            NRef (S (length (objects w)));
                            NRedirect NO_INPUT_ENDPOINT ];
                OGather speech_gather ]
         else [ OResponse [ NSay m "Polly.Joanna" ] ]) |}).
Proof.
  unfold generate_twiml_response_object, new_object.
  cbv beta iota zeta.
  set (h := objects w).
  rewrite (nest_at (World (db w) (requests w) (h ++ [OResponse []])) h [] []
             (NSay m "Polly.Joanna") eq_refl).
  cbn [db requests objects app].
  destruct g; [|reflexivity].
  rewrite length_app. cbn [length].
  replace (length h + 1)%nat with (S (length h)) by lia.
  rewrite <- app_assoc. cbn [app].
  rewrite (nest_at (World (db w) (requests w) _) h [OGather speech_gather] _
             (NRef (S (length h))) eq_refl).
  cbn [db requests objects app].
  rewrite (nest_at (World (db w) (requests w) _) h [OGather speech_gather] _
             (NRedirect NO_INPUT_ENDPOINT) eq_refl).
  reflexivity.
Qed.

(** The builder on objects and the builder on documents agree, and the
    builder on objects touches nothing that was there. *)
Lemma generate_twiml_response_object_frame (m : string) (g : bool)
    (w : @world datetime) :
  let '(response, w') := generate_twiml_response_object m g w in
  db w' = db w /\
  requests w' = requests w /\
  objects w !! response = None /\
  (forall l o, objects w !! l = Some o -> objects w' !! l = Some o) /\
  document_of (objects w') response = Some (generate_twiml_response m g).
Proof.
  rewrite generate_twiml_response_object_result. cbn [db requests objects].
  split; [reflexivity|]. split; [reflexivity|].
  split; [now apply lookup_ge_None_2|].
  split; [intros l o Hl; now apply lookup_app_l_Some|].
  unfold document_of.
  destruct g; rewrite list_lookup_middle by reflexivity; [|reflexivity].
  cbn [resolve_all resolve].
  replace (S (length (objects w))) with (length (objects w) + 1)%nat by lia.
  rewrite lookup_app_r by lia.
  replace (length (objects w) + 1 - length (objects w))%nat with 1%nat by lia.
  reflexivity.
Qed.

(** What a call to the builder puts out, wherever it stands in a run. *)
Lemma run_twiml_at (before after : list call) (m : string) (g : bool)
    (w : @world datetime) :
  fst (run json_loads fromisoformat strptime service
         (before ++ CTwiml m g :: after) w) !! length before
  = Some (ODocument (Some (generate_twiml_response m g))).
Proof.
  rewrite run_app.
  pose proof (run_length before w) as Hlen.
  destruct (run _ _ _ _ before w) as [os1 w1]. simpl in Hlen.
  cbn [run step].
  pose proof (generate_twiml_response_object_frame m g w1) as Hframe.
  destruct (generate_twiml_response_object m g w1) as [response w2].
  destruct Hframe as (_ & _ & _ & _ & ->).
  destruct (run _ _ _ _ after w2) as [os2 w3]. simpl.
  now apply list_lookup_middle.
Qed.

(** C9: in any sequence of notebook calls, two calls of the builder with
    the same message and the same flag put out the same document, whatever
    was called before, between and after them and whatever the session,
    the remote model and the memory held; and a call of the builder, which
    creates its response object and fills it by method calls, leaves the
    session and the request count as they were, returns an object that
    did not exist before and changes no object that did. *)
Theorem generate_twiml_response_pure
    (before between after : list call) (m : string) (g : bool)
    (w : @world datetime) :
  let calls := before ++ CTwiml m g :: between ++ CTwiml m g :: after in
  let outcomes := fst (run json_loads fromisoformat strptime service calls w) in
  outcomes !! length before
    = Some (ODocument (Some (generate_twiml_response m g))) /\
  outcomes !! (length before + 1 + length between)%nat
    = Some (ODocument (Some (generate_twiml_response m g))) /\
  (forall w0 : @world datetime,
     let '(response, w1) := generate_twiml_response_object m g w0 in
     db w1 = db w0 /\
     requests w1 = requests w0 /\
     objects w0 !! response = None /\
     (forall l o, objects w0 !! l = Some o -> objects w1 !! l = Some o) /\
     document_of (objects w1) response = Some (generate_twiml_response m g)).
Proof.
  cbv zeta. split; [apply run_twiml_at|].
  split; [|apply generate_twiml_response_object_frame].
  replace (before ++ CTwiml m g :: between ++ CTwiml m g :: after)
    with ((before ++ CTwiml m g :: between) ++ CTwiml m g :: after)
    by (rewrite <- app_assoc; reflexivity).
  replace (length before + 1 + length between)%nat
    with (length (before ++ CTwiml m g :: between))
    by (rewrite length_app; simpl; lia).
  apply run_twiml_at.
Qed.

End Whole.

(** The simulated call of the notebook, with the order it printed as the
    model's answer: the details decode, the order is saved under key 1 with
    a total of 2400, the fallback draft is refused for its empty name,
    after which the session refuses the next save, and the two documents
    built around the saves are the same. *)
Example simulated_call :
  fst (run Lib.json_loads Lib.fromisoformat Lib.strptime
         (fun _ => Lib.answering (Json.dumps johns_order))
         [ CTwiml "How can I help?" true;
           CParse "My name is John." [];
           CSave johns_order CALLER;
           CSave FALLBACK_DETAILS CALLER;
           CSave johns_order CALLER;
           CTwiml "How can I help?" true;
           CTwiml "Goodbye." false ]
         (World (Session [] false) 0 []))
  = [ ODocument (Some [ Say "How can I help?" "Polly.Joanna";
                        Listen speech_gather;
                        Redirect "/voice/handle-no-input" ]);
      ODetails (Ok johns_order);
      OSaved (Ok 1%Z);
      OSaved (Raise (IntegrityError "orders.customer_name"));
      OSaved (Raise PendingRollbackError);
      ODocument (Some [ Say "How can I help?" "Polly.Joanna";
                        Listen speech_gather;
                        Redirect "/voice/handle-no-input" ]);
      ODocument (Some [ Say "Goodbye." "Polly.Joanna" ]) ].
Proof. vm_compute. reflexivity. Qed.
(* ===================================================================== *)
(** * Further properties of the notebook's functions *)
(* ===================================================================== *)

(** ** The shape of a label *)

Lemma isupper_lower_char (c : ascii) : isupper (lower_char c) = false.
Proof. destruct c as [[] [] [] [] [] [] [] []]; reflexivity. Qed.

Lemma lower_has_no_upper (s : string) (c : ascii) :
  In c (list_ascii_of_string (lower s)) -> isupper c = false.
Proof.
  induction s as [|a s IH]; simpl; [tauto|].
  intros [<-|Hin]; [apply isupper_lower_char | now apply IH].
Qed.

Lemma lstrip_head (s : string) (c : ascii) (rest : string) :
  lstrip s = String c rest -> isspace c = false.
Proof.
  induction s as [|a s IH]; simpl; [discriminate|].
  destruct (isspace a) eqn:Ea; [exact IH|].
  intros H. injection H as <- _. exact Ea.
Qed.

Lemma strip_head (s : string) (c : ascii) (rest : string) :
  strip s = String c rest -> isspace c = false.
Proof.
  unfold strip. destruct (lstrip s) as [|a t] eqn:E; [discriminate|].
  rewrite rstrip_cons. pose proof (lstrip_head s a t E) as Ha.
  destruct (rstrip t); rewrite ?Ha; intros H; injection H as <- _; exact Ha.
Qed.

Lemma rstrip_last (s front : string) (c : ascii) :
  rstrip s = front +:+ String c EmptyString -> isspace c = false.
Proof.
  revert front. induction s as [|a s IH]; intros front.
  - destruct front; discriminate.
  - rewrite rstrip_cons. destruct (rstrip s) as [|b r] eqn:E.
    + destruct (isspace a) eqn:Ea.
      * destruct front; discriminate.
      * destruct front as [|f front]; simpl; intros H.
        -- injection H as <-. exact Ea.
        -- injection H as _ H. destruct front; discriminate H.
    + destruct front as [|f front]; simpl; intros H; [discriminate H|].
      injection H as _ H. exact (IH front H).
Qed.

Lemma strip_empty_iff (s : string) :
  strip s = EmptyString <-> forallb isspace (list_ascii_of_string s) = true.
Proof.
  unfold strip. induction s as [|a s IH]; [simpl; tauto|].
  cbn [lstrip list_ascii_of_string forallb].
  destruct (isspace a) eqn:Ea; cbn [andb]; [exact IH|].
  split; [|discriminate].
  rewrite rstrip_cons. destruct (rstrip s); rewrite ?Ea; discriminate.
Qed.

Lemma lower_empty_iff (s : string) : lower s = EmptyString <-> s = EmptyString.
Proof. destruct s; simpl; split; intros H; (reflexivity || discriminate H). Qed.

(** X1: a label returned by [classify_intent] holds no upper-case letter
    and neither starts nor ends with a whitespace character. *)
Theorem classify_intent_label_shape
    (create : chat_api) (transcript label : string) :
  classify_intent create transcript = Ok label ->
  (forall c, In c (list_ascii_of_string label) -> isupper c = false) /\
  (forall c rest, label = String c rest -> isspace c = false) /\
  (forall front c, label = front +:+ String c EmptyString -> isspace c = false).
Proof.
  rewrite classify_intent_cases.
  destruct (create (classify_request transcript)) as [[|[text|] rest]|e];
    try discriminate.
  intros H. injection H as <-. split; [|split].
  - intros c. apply lower_has_no_upper.
  - intros c tl. rewrite <- strip_lower. apply strip_head.
  - intros front c. rewrite <- strip_lower. unfold strip. apply rstrip_last.
Qed.

Lemma classify_intent_label_shape_witness :
  forallb (fun c => negb (isupper c)) (list_ascii_of_string "check_status") = true
  /\ (forall c rest, "check_status" = String c rest -> isspace c = false).
Proof.
  split; [reflexivity|].
  exact (proj1 (proj2 (classify_intent_label_shape
                         (Lib.answering " Check_Status ")
                         "What time will my food arrive?" "check_status"
                         eq_refl))).
Defined.

(** X2: for an ASCII answer, the label is the empty string exactly when
    the answer consists of whitespace only (the empty answer included);
    such an answer is not turned into a label of its own. *)
Theorem classify_intent_empty_label (create : chat_api)
    (transcript text : string) (rest : completion) :
  create (classify_request transcript) = Ok (Some text :: rest) ->
  is_ascii text = true ->
  (classify_intent create transcript = Ok EmptyString <->
   forallb isspace (list_ascii_of_string text) = true).
Proof.
  intros Hanswer _. rewrite classify_intent_cases, Hanswer. split.
  - intros H. injection H as H. now apply lower_empty_iff, strip_empty_iff in H.
  - intros Hspace. apply strip_empty_iff in Hspace. now rewrite Hspace.
Qed.

Lemma classify_intent_empty_label_witness :
  classify_intent (Lib.answering "   ") "Hmm" = Ok EmptyString.
Proof.
  exact (proj2 (classify_intent_empty_label (Lib.answering "   ") "Hmm" "   " []
                  eq_refl eq_refl) eq_refl).
Defined.

(** ** The history, as the generator and the extractor read it *)

Lemma append_assoc (a b c : string) : (a +:+ b) +:+ c = a +:+ b +:+ c.
Proof.
  induction a as [|x a IH]; [reflexivity|].
  change (String x ((a +:+ b) +:+ c) = String x (a +:+ b +:+ c)).
  now rewrite IH.
Qed.

Lemma history_messages_app (h1 h2 : list exchange) :
  history_messages (h1 ++ h2) =
  (first ← history_messages h1; second ← history_messages h2; Ok (first ++ second)).
Proof.
  induction h1 as [|ex h1 IH]; simpl.
  - now destruct (history_messages h2).
  - destruct (getitem ex "customer") as [customer|e]; simpl; [|reflexivity].
    rewrite IH. destruct (history_messages h1) as [first|e]; simpl; [|reflexivity].
    destruct (history_messages h2) as [second|e]; simpl; [|reflexivity].
    now rewrite app_assoc.
Qed.

Lemma history_messages_missing (history : list exchange) :
  Exists (fun ex => lookup_key "customer" ex = None) history ->
  history_messages history = Raise (KeyError "customer").
Proof.
  induction history as [|ex rest IH]; intros Hex.
  - inversion Hex.
  - simpl. unfold getitem.
    destruct (lookup_key "customer" ex) as [customer|] eqn:E; simpl;
      [|reflexivity].
    rewrite IH; [reflexivity|].
    inversion Hex as [? ? Hhere|? ? Hlater]; subst; [congruence | exact Hlater].
Qed.

Lemma history_messages_complete (history : list exchange) :
  Forall (fun ex => lookup_key "customer" ex <> None) history ->
  exists past,
    history_messages history = Ok past /\
    (length history <= length past <= 2 * length history)%nat.
Proof.
  induction 1 as [|ex rest Hex _ (past & Hpast & Hlen)].
  - exists []. split; [reflexivity | simpl; lia].
  - simpl. unfold getitem.
    destruct (lookup_key "customer" ex) as [customer|]; [|contradiction].
    simpl. rewrite Hpast. simpl.
    eexists. split; [reflexivity|].
    rewrite length_app. destruct (lookup_key "assistant" ex); simpl; lia.
Qed.

(** X3: when an exchange of the history lacks the ["customer"] key,
    [generate_response] raises [KeyError] whatever the endpoint would have
    answered; when every exchange has the key, the history becomes one or
    two messages per exchange. *)
Theorem generate_response_missing_customer (create : chat_api)
    (transcript : string) (history : list exchange) (order_data : value) :
  (Exists (fun ex => lookup_key "customer" ex = None) history ->
   generate_response create transcript history order_data
     = Raise (KeyError "customer")) /\
  (Forall (fun ex => lookup_key "customer" ex <> None) history ->
   exists past,
     history_messages history = Ok past /\
     (length history <= length past <= 2 * length history)%nat).
Proof.
  split; [|apply history_messages_complete].
  intros Hex. unfold generate_response.
  now rewrite (history_messages_missing history Hex).
Qed.

(** X4: order data that counts as false ([None], an empty dict, zero, an
    empty string or list) adds no message: the request is the one sent
    without order data. *)
Theorem generate_response_false_order_data (create : chat_api)
    (transcript : string) (history : list exchange) (order_data : value) :
  truthy order_data = false ->
  generate_response create transcript history order_data
  = generate_response create transcript history PNone.
Proof.
  intros Hfalse. unfold generate_response, order_context.
  now rewrite Hfalse.
Qed.

Lemma generate_response_false_order_data_witness :
  generate_response (Lib.answering "Of course!") "That sounds good. Thank you."
    [] (PDict [])
  = generate_response (Lib.answering "Of course!") "That sounds good. Thank you."
      [] PNone.
Proof.
  exact (generate_response_false_order_data (Lib.answering "Of course!")
           "That sounds good. Thank you." [] (PDict []) eq_refl).
Defined.

(** X5: when the caller has already put the current utterance into the
    history as an exchange without reply, as the simulated call does, the
    request carries that utterance twice in a row, once from the history
    and once as the current transcript. *)
Theorem generate_response_repeats_transcript (create : chat_api)
    (transcript : string) (history : list exchange) (ex : exchange)
    (order_data : value) :
  lookup_key "customer" ex = Some transcript ->
  lookup_key "assistant" ex = None ->
  generate_response create transcript (history ++ [ex]) order_data =
  (past ← history_messages history;
   response ← create (generate_request
                       ([ Message "system" persona_prompt ] ++ past
                          ++ [ Message "user" transcript;
                               Message "user" transcript ]
                          ++ order_context order_data));
   first_content response).
Proof.
  intros Hcustomer Hreply. unfold generate_response.
  rewrite history_messages_app. simpl. unfold getitem.
  rewrite Hcustomer, Hreply. simpl.
  destruct (history_messages history) as [past|e]; simpl; [|reflexivity].
  now rewrite <- !app_assoc.
Qed.

Lemma generate_response_repeats_transcript_witness :
  generate_response (Lib.failing "timeout")
    "Hi, I'd like to place an order for delivery."
    [ [("customer", "Hi, I'd like to place an order for delivery.")] ] PNone
  = Raise (ServiceError "timeout").
Proof.
  exact (generate_response_repeats_transcript (Lib.failing "timeout")
           "Hi, I'd like to place an order for delivery." []
           [("customer", "Hi, I'd like to place an order for delivery.")]
           PNone eq_refl eq_refl).
Defined.

Lemma conversation_text_app (h1 h2 : list exchange) :
  conversation_text (h1 ++ h2) = conversation_text h1 +:+ conversation_text h2.
Proof.
  induction h1 as [|ex h1 IH]; simpl; [reflexivity|].
  now rewrite IH, !append_assoc.
Qed.

Section ExtractionMore.

Variable json_loads : string -> result value.

(** X6: the extractor skips an exchange that carries neither the
    ["customer"] nor the ["assistant"] key: with or without it, anywhere in
    the history, the request and the result are the same. *)
Theorem parse_order_details_skips_empty_exchange (create : chat_api)
    (transcript : string) (h1 h2 : list exchange) (ex : exchange) :
  lookup_key "customer" ex = None ->
  lookup_key "assistant" ex = None ->
  conversation_text (h1 ++ ex :: h2) = conversation_text (h1 ++ h2) /\
  parse_order_details json_loads create transcript (h1 ++ ex :: h2)
  = parse_order_details json_loads create transcript (h1 ++ h2).
Proof.
  intros Hcustomer Hreply.
  assert (Htext : conversation_text (h1 ++ ex :: h2) = conversation_text (h1 ++ h2)).
  { rewrite !conversation_text_app. simpl. now rewrite Hcustomer, Hreply. }
  split; [exact Htext|]. unfold parse_order_details. now rewrite Htext.
Qed.

(** X7: what the extractor can raise: the endpoint's own exception,
    [IndexError] for an answer without choices, [TypeError] for a choice
    without content, or an exception of the decoder other than
    [JSONDecodeError]; once the endpoint has answered, a [JSONDecodeError]
    never leaves the function. *)
Theorem parse_order_details_exceptions (create : chat_api)
    (transcript : string) (history : list exchange) (e : exn) :
  parse_order_details json_loads create transcript history = Raise e ->
  let request :=
    extract_request (conversation_text history +:+ "Customer: " +:+ transcript) in
  create request = Raise e \/
  (create request = Ok [] /\ e = IndexError) \/
  (exists rest, create request = Ok (None :: rest) /\ e = TypeError) \/
  (exists payload rest,
     create request = Ok (Some payload :: rest) /\
     json_loads payload = Raise e /\ e <> JSONDecodeError).
Proof.
  rewrite parse_order_details_cases. cbv zeta.
  destruct (create _) as [[|[payload|] rest]|e0]; intros H.
  - right. left. now injection H as <-.
  - right. right. right. exists payload, rest. split; [reflexivity|].
    destruct (json_loads payload) as [v|e1]; [discriminate H|].
    destruct e1; try discriminate H; injection H as <-;
      (split; [reflexivity | discriminate]).
  - right. right. left. exists rest. now injection H as <-.
  - left. now injection H as <-.
Qed.

End ExtractionMore.

Lemma parse_order_details_skips_empty_exchange_witness :
  parse_order_details Lib.json_loads (Lib.answering "{}") "My name is John."
    ([ [("customer", "Hello")] ] ++ [("note", "dropped call")] :: [])
  = parse_order_details Lib.json_loads (Lib.answering "{}") "My name is John."
      ([ [("customer", "Hello")] ] ++ []).
Proof.
  exact (proj2 (parse_order_details_skips_empty_exchange Lib.json_loads
                  (Lib.answering "{}") "My name is John."
                  [ [("customer", "Hello")] ] [] [("note", "dropped call")]
                  eq_refl eq_refl)).
Defined.

Lemma parse_order_details_exceptions_witness :
  let request :=
    extract_request (conversation_text [] +:+ "Customer: " +:+ "Hello") in
  Lib.failing "rate limit" request = Raise (ServiceError "rate limit") \/
  (Lib.failing "rate limit" request = Ok [] /\
   ServiceError "rate limit" = IndexError) \/
  (exists rest, Lib.failing "rate limit" request = Ok (None :: rest) /\
                ServiceError "rate limit" = TypeError) \/
  (exists payload rest,
     Lib.failing "rate limit" request = Ok (Some payload :: rest) /\
     Lib.json_loads payload = Raise (ServiceError "rate limit") /\
     ServiceError "rate limit" <> JSONDecodeError).
Proof.
  exact (parse_order_details_exceptions Lib.json_loads
           (Lib.failing "rate limit") "Hello" [] (ServiceError "rate limit")
           eq_refl).
Defined.

(** ** More on the order total *)

(** The running total only shifts what an item adds. *)
Lemma add_item_shift (total : Z) (item : value) :
  add_item total item = (z ← add_item 0 item; Ok (total + z)%Z).
Proof.
  unfold add_item. destruct (as_dict item) as [fields|e]; simpl; [|reflexivity].
  destruct (lower_of _) as [item_name|e]; simpl; [|reflexivity].
  destruct (get fields "quantity" (PInt 1)) as [|b|q| | |]; simpl;
    try reflexivity; f_equal; lia.
Qed.

Lemma total_from_shift (items : list value) (total : Z) :
  total_from total items = (t ← total_from 0 items; Ok (total + t)%Z).
Proof.
  revert total. induction items as [|item rest IH]; intros total; simpl.
  - f_equal. lia.
  - rewrite (add_item_shift total item).
    destruct (add_item 0 item) as [z|e]; simpl; [|reflexivity].
    rewrite (IH (total + z)%Z), (IH z).
    destruct (total_from 0 rest) as [t|e]; simpl; [|reflexivity].
    f_equal. lia.
Qed.

Lemma total_from_cons (item : value) (rest : list value) :
  total_from 0 (item :: rest) =
  (z ← add_item 0 item; t ← total_from 0 rest; Ok (z + t)%Z).
Proof.
  simpl. destruct (add_item 0 item) as [z|e]; simpl; [|reflexivity].
  apply total_from_shift.
Qed.

Lemma total_from_app (xs ys : list value) (total : Z) :
  total_from total (xs ++ ys) = (t ← total_from total xs; total_from t ys).
Proof.
  revert total. induction xs as [|x xs IH]; intros total; simpl; [reflexivity|].
  destruct (add_item total x) as [t|e]; simpl; [apply IH | reflexivity].
Qed.

Lemma add_item_dict (total : Z) (fields : dict) :
  add_item total (PDict fields) =
  (item_name ← lower_of (get fields "item" (PStr EmptyString));
   add_line total (default DEFAULT_PRICE (menu_prices !! item_name))
     (get fields "quantity" (PInt 1))).
Proof. reflexivity. Qed.

Lemma priceable_returns (item : value) :
  priceable item = true -> exists z, add_item 0 item = Ok z.
Proof.
  unfold add_item, priceable.
  destruct item as [| | | | |fields]; try discriminate. cbn [as_dict].
  unfold mbind, result_bind.
  destruct (get fields "item" (PStr EmptyString)); try discriminate.
  cbn [lower_of].
  destruct (get fields "quantity" (PInt 1)); try discriminate;
    intros _; eexists; reflexivity.
Qed.

Lemma total_from_priceable (items : list value) :
  forallb priceable items = true -> exists total, total_from 0 items = Ok total.
Proof.
  induction items as [|item rest IH]; [now eexists|].
  cbn [forallb]. rewrite andb_true_iff. intros [Hitem Hrest].
  destruct (priceable_returns item Hitem) as [z Hz].
  destruct (IH Hrest) as [t Ht].
  rewrite total_from_cons, Hz. cbn. rewrite Ht. now eexists.
Qed.

Lemma total_from_permutation (items items' : list value) (total : Z) :
  Permutation items items' ->
  total_from 0 items = Ok total -> total_from 0 items' = Ok total.
Proof.
  intros Hperm. revert total.
  induction Hperm as [|x l l' _ IH|x y l|l l' l'' _ IH1 _ IH2]; intros total.
  - auto.
  - rewrite !total_from_cons.
    destruct (add_item 0 x) as [z|e]; simpl; [|discriminate].
    destruct (total_from 0 l) as [t|e] eqn:E; simpl; [|discriminate].
    intros H. now rewrite (IH t eq_refl).
  - rewrite (total_from_cons y), (total_from_cons x).
    unfold mbind, result_bind.
    rewrite (total_from_cons x), (total_from_cons y).
    unfold mbind, result_bind.
    destruct (add_item 0 y) as [zy|e]; [|discriminate].
    destruct (add_item 0 x) as [zx|e]; [|discriminate].
    destruct (total_from 0 l) as [t|e]; [|discriminate].
    intros H. injection H as <-. f_equal. lia.
  - intros H. auto.
Qed.

(** X8: on items whose name, if any, is a string and whose quantity, if
    any, is an integer, a total is returned and it does not depend on the
    order of the items. *)
Theorem calculate_order_total_permutation (items items' : list value) :
  forallb priceable items = true ->
  Permutation items items' ->
  exists total,
    calculate_order_total (PList items) = Ok total /\
    calculate_order_total (PList items') = Ok total.
Proof.
  intros Htyped Hperm. unfold calculate_order_total. simpl.
  destruct (total_from_priceable items Htyped) as [total Htotal].
  exists total. split; [exact Htotal|].
  exact (total_from_permutation items items' total Hperm Htotal).
Qed.

Lemma calculate_order_total_permutation_witness :
  exists total,
    calculate_order_total
      (PList [ PDict [("item", PStr "Seafood Linguine")];
               PDict [("item", PStr "Tiramisu"); ("quantity", PInt 2)] ])
    = Ok total /\
    calculate_order_total
      (PList [ PDict [("item", PStr "Tiramisu"); ("quantity", PInt 2)];
               PDict [("item", PStr "Seafood Linguine")] ])
    = Ok total.
Proof.
  refine (calculate_order_total_permutation
            [ PDict [("item", PStr "Seafood Linguine")];
              PDict [("item", PStr "Tiramisu"); ("quantity", PInt 2)] ]
            [ PDict [("item", PStr "Tiramisu"); ("quantity", PInt 2)];
              PDict [("item", PStr "Seafood Linguine")] ]
            _ _).
  - reflexivity.
  - apply perm_swap.
Defined.

(** X9: for two lists of items whose names are strings and whose
    quantities are integers, the total of the lists put together is the
    sum of their totals. *)
Theorem calculate_order_total_app (xs ys : list value) :
  forallb priceable xs = true ->
  forallb priceable ys = true ->
  exists tx ty,
    calculate_order_total (PList xs) = Ok tx /\
    calculate_order_total (PList ys) = Ok ty /\
    calculate_order_total (PList (xs ++ ys)) = Ok (tx + ty)%Z.
Proof.
  intros Hxs Hys. unfold calculate_order_total. simpl.
  destruct (total_from_priceable xs Hxs) as [tx Hx].
  destruct (total_from_priceable ys Hys) as [ty Hy].
  exists tx, ty. split; [exact Hx|]. split; [exact Hy|].
  rewrite total_from_app, Hx. simpl.
  rewrite total_from_shift, Hy. reflexivity.
Qed.

Lemma calculate_order_total_app_witness :
  exists tx ty,
    calculate_order_total (PList [ PDict [("item", PStr "Tiramisu")] ]) = Ok tx /\
    calculate_order_total
      (PList [ PDict [("item", PStr "Focaccia"); ("quantity", PInt 2)] ]) = Ok ty /\
    calculate_order_total
      (PList ([ PDict [("item", PStr "Tiramisu")] ] ++
              [ PDict [("item", PStr "Focaccia"); ("quantity", PInt 2)] ]))
    = Ok (tx + ty)%Z.
Proof.
  exact (calculate_order_total_app
           [ PDict [("item", PStr "Tiramisu")] ]
           [ PDict [("item", PStr "Focaccia"); ("quantity", PInt 2)] ]
           eq_refl eq_refl).
Defined.

(** X10: on a list every element of which is a dict whose name, if
    present, is a string and whose quantity, if present, is an integer,
    the total is returned: a key that is missing never raises, and an
    empty list gives zero. *)
Theorem calculate_order_total_returns (items : list value) :
  forallb priceable items = true ->
  returns (calculate_order_total (PList items)) /\
  (items = [] -> calculate_order_total (PList items) = Ok 0%Z) /\
  (forall fields, In (PDict fields) items ->
     forall total, add_item total (PDict fields) =
       Ok (total +
           default DEFAULT_PRICE
             (menu_prices !!
                match get fields "item" (PStr EmptyString) with
                | PStr n => lower n
                | _ => EmptyString
                end) *
           match get fields "quantity" (PInt 1) with
           | PInt q => q
           | PBool true => 1
           | _ => 0
           end)%Z).
Proof.
  intros Htyped. split; [|split].
  - unfold calculate_order_total, returns. simpl.
    exact (total_from_priceable items Htyped).
  - now intros ->.
  - intros fields Hin total.
    rewrite forallb_forall in Htyped. specialize (Htyped _ Hin).
    unfold priceable in Htyped. rewrite add_item_dict.
    destruct (get fields "item" (PStr EmptyString)); try discriminate.
    cbn [lower_of]. unfold mbind, result_bind.
    destruct (get fields "quantity" (PInt 1)) as [|[]| | | |];
      try discriminate; reflexivity.
Qed.

Lemma calculate_order_total_returns_witness :
  returns (calculate_order_total
             (PList [ PDict []; PDict [("quantity", PBool true)];
                      PDict [("item", PStr "Tiramisu"); ("note", PNone)] ])).
Proof.
  exact (proj1 (calculate_order_total_returns
                  [ PDict []; PDict [("quantity", PBool true)];
                    PDict [("item", PStr "Tiramisu"); ("note", PNone)] ]
                  eq_refl)).
Defined.

Lemma unit_price_bounds (n : string) :
  (800 <= Spec.unit_price n <= 2200)%Z.
Proof.
  unfold Spec.unit_price, Spec.MENU_TABLE. cbn [find fst snd].
  repeat match goal with
         | |- context [Spec.same_name ?k n] => destruct (Spec.same_name k n)
         end; simpl; lia.
Qed.

Lemma computeTotal_bounds (lines : list Spec.line_item) :
  Forall (fun line => (0 <= Spec.quantity line)%Z) lines ->
  let pieces := fold_right (fun line acc => (Spec.quantity line + acc)%Z) 0%Z lines in
  (800 * pieces <= Spec.computeTotal lines <= 2200 * pieces)%Z.
Proof.
  cbv zeta. induction 1 as [|line rest Hq _ IH]; simpl; [lia|].
  pose proof (unit_price_bounds (Spec.name line)). nia.
Qed.

(** X11: when no quantity is negative, the total lies between 800 and
    2200 cents per piece ordered, the cheapest and the dearest price an
    item can have; in particular it is not negative. *)
Theorem calculate_order_total_bounds
    (items : list value) (lines : list Spec.line_item) :
  Forall2 Spec.represents items lines ->
  Forall (fun line => (0 <= Spec.quantity line)%Z) lines ->
  let pieces := fold_right (fun line acc => (Spec.quantity line + acc)%Z) 0%Z lines in
  exists total,
    calculate_order_total (PList items) = Ok total /\
    (0 <= 800 * pieces <= total)%Z /\ (total <= 2200 * pieces)%Z.
Proof.
  intros Hitems Hq pieces. exists (Spec.computeTotal lines).
  split.
  - unfold calculate_order_total. simpl.
    now rewrite (total_from_represents items lines Hitems).
  - pose proof (computeTotal_bounds lines Hq) as H. cbv zeta in H. fold pieces in H.
    assert (0 <= pieces)%Z; [|lia].
    subst pieces. clear H Hitems. induction Hq; simpl; lia.
Qed.

Lemma calculate_order_total_bounds_witness :
  exists total,
    calculate_order_total
      (PList [ PDict [("item", PStr "Garlic bread"); ("quantity", PInt 3)] ])
    = Ok total /\
    (0 <= 800 * (3 + 0) <= total)%Z /\ (total <= 2200 * (3 + 0))%Z.
Proof.
  refine (calculate_order_total_bounds
            [ PDict [("item", PStr "Garlic bread"); ("quantity", PInt 3)] ]
            [ Spec.LineItem "Garlic bread" 3 ] _ _).
  - repeat constructor. eexists. repeat split; reflexivity.
  - repeat constructor. simpl. lia.
Defined.

(** X12: a key the item does not carry takes the default (no name is
    priced as an unknown item, no quantity counts as one), but a key that
    is present with the value [None] does not: a null name raises
    [AttributeError] and a null quantity raises [TypeError]. *)
Theorem calculate_order_total_missing_or_null (fields : dict) :
  (lookup_key "item" fields = None ->
   forall q, lookup_key "quantity" fields = Some (PInt q) ->
   calculate_order_total (PList [PDict fields]) = Ok (1000 * q)%Z) /\
  (lookup_key "quantity" fields = None ->
   forall n, lookup_key "item" fields = Some (PStr n) ->
   calculate_order_total (PList [PDict fields])
     = Ok (default DEFAULT_PRICE (menu_prices !! lower n))) /\
  (lookup_key "item" fields = None -> lookup_key "quantity" fields = None ->
   calculate_order_total (PList [PDict fields]) = Ok 1000%Z) /\
  (lookup_key "item" fields = Some PNone ->
   calculate_order_total (PList [PDict fields]) = Raise AttributeError) /\
  (lookup_key "quantity" fields = Some PNone ->
   forall n, lookup_key "item" fields = Some (PStr n) ->
   calculate_order_total (PList [PDict fields]) = Raise TypeError).
Proof.
  assert (Hone : calculate_order_total (PList [PDict fields]) =
                 (item_name ← lower_of (get fields "item" (PStr EmptyString));
                  total ← add_line 0 (default DEFAULT_PRICE (menu_prices !! item_name))
                            (get fields "quantity" (PInt 1));
                  Ok total)).
  { unfold calculate_order_total. simpl. rewrite add_item_dict.
    destruct (lower_of _); simpl; [|reflexivity].
    now destruct (add_line _ _ _). }
  rewrite Hone. unfold get, mbind, result_bind.
  repeat split.
  - intros Hname q Hq. rewrite Hname, Hq. reflexivity.
  - intros Hq n Hname. rewrite Hname, Hq. cbn [lower_of add_line]. f_equal. lia.
  - intros Hname Hq. rewrite Hname, Hq. reflexivity.
  - intros Hname. rewrite Hname. reflexivity.
  - intros Hq n Hname. rewrite Hname, Hq. reflexivity.
Qed.

(** ** More on persistence *)

Section PersistenceMore.

Context {datetime : Type}.
Variable fromisoformat : string -> result datetime.
Variable strptime : string -> string -> result datetime.

Lemma next_id_above (rows : list (@Order datetime)) :
  (1 <= next_id rows)%Z /\ Forall (fun row => (id row < next_id rows)%Z) rows.
Proof.
  unfold next_id. induction rows as [|row rows [Hone Hall]]; simpl.
  - split; [lia | constructor].
  - split; [lia|]. constructor; [lia|].
    eapply Forall_impl; [exact Hall|]. simpl. intros r Hr. lia.
Qed.

Lemma fresh_key_keeps_keys_distinct (rows : list (@Order datetime)) (row : Order) :
  id row = next_id rows -> NoDup (map id rows) -> NoDup (map id (rows ++ [row])).
Proof.
  intros Hkey Hnodup. destruct (next_id_above rows) as [_ Hall].
  rewrite map_app. simpl.
  apply NoDup_app. split; [exact Hnodup|]. split; [|apply NoDup_singleton].
  intros k Hk Hin. apply list_elem_of_singleton in Hin. subst k.
  apply list_elem_of_In, in_map_iff in Hk. destruct Hk as (r & Hid & Hr).
  rewrite Forall_forall in Hall. apply list_elem_of_In in Hr.
  specialize (Hall r Hr). lia.
Qed.

(** A save that raises leaves the table as it was. *)
Lemma save_order_failure_keeps_table (s : @session datetime)
    (order_details : value) (phone : string) (e : exn) (s' : @session datetime) :
  save_order fromisoformat strptime s order_details phone = (Raise e, s') ->
  table s' = table s /\ (needs_rollback s = true -> needs_rollback s' = true).
Proof.
  destruct order_details as [| | | | |fields];
    try (intros H; injection H as _ <-; now split).
  rewrite save_order_cases.
  destruct (calculate_order_total _); [|intros H; injection H as _ <-; now split].
  destruct (parse_datetime _ _ _); [|intros H; injection H as _ <-; now split].
  destruct (needs_rollback s) eqn:Hstate;
    [intros H; injection H as _ <-; now split|].
  cbv zeta. destruct (refusal _); [|discriminate].
  intros H. injection H as _ <-. now split.
Qed.

(** Once a flush has failed, nothing is saved any more. *)
Lemma save_order_needs_usable_session (s : @session datetime)
    (order_details : value) (phone : string) (key : Z) (s' : @session datetime) :
  needs_rollback s = true ->
  save_order fromisoformat strptime s order_details phone <> (Ok key, s').
Proof.
  intros Hstate Hsaved.
  destruct (save_order_inversion _ _ _ _ _ _ _ Hsaved)
    as (_ & _ & _ & _ & _ & _ & Husable & _).
  congruence.
Qed.

(** X14: a draft whose ["customer_name"] is present with the value [None]
    is never saved; on a usable session, when its other fields can be
    stored, the insert is refused for the name, the table stays as it was
    and the session is left waiting for a rollback. *)
Theorem save_order_rejects_null_name (s : @session datetime) (fields : dict)
    (phone : string) :
  lookup_key "customer_name" fields = Some PNone ->
  (forall key s',
     save_order fromisoformat strptime s (PDict fields) phone <> (Ok key, s')) /\
  (forall total reservation,
     calculate_order_total (get fields "order_items" (PList [])) = Ok total ->
     parse_datetime fromisoformat strptime (get fields "reservation_time" PNone)
       = Ok reservation ->
     needs_rollback s = false ->
     fits_int64 total = true ->
     bindable (get fields "party_size" PNone) = true ->
     save_order fromisoformat strptime s (PDict fields) phone
       = (Raise (IntegrityError "orders.customer_name"),
          {| table := table s; needs_rollback := true |})).
Proof.
  intros Hnull.
  assert (Hname : get fields "customer_name" (PStr "Unknown") = PNone).
  { unfold get. now rewrite Hnull. }
  split.
  - intros key s' Hsaved.
    destruct (save_order_inversion _ _ _ _ _ _ _ Hsaved)
      as (f & total & reservation & Hf & _ & _ & _ & Hrefusal & _).
    injection Hf as <-. apply refusal_none in Hrefusal.
    destruct Hrefusal as (_ & _ & _ & Hnone).
    cbn [row_of customer_name] in Hnone. rewrite Hname in Hnone.
    discriminate Hnone.
  - intros total reservation Htotal Htime Hstate Hfits Hsize.
    rewrite save_order_cases, Htotal, Htime, Hstate. cbv zeta.
    unfold refusal. cbn [row_of customer_name order_total party_size].
    rewrite Hname, Hfits, Hsize. reflexivity.
Qed.

Lemma parse_datetime_returns (v : value) :
  (forall s e, fromisoformat s = Raise e -> is_value_or_type_error e = true) ->
  (forall s f e, strptime s f = Raise e -> is_value_or_type_error e = true) ->
  exists r,
    parse_datetime fromisoformat strptime v = Ok r /\
    ((forall s, v = PStr s ->
        raises (fromisoformat s) /\ raises (strptime s DATETIME_FORMAT)) ->
     r = None).
Proof.
  intros Hiso Hstrp. unfold parse_datetime.
  destruct (truthy v); simpl; [|now exists None].
  destruct v as [|b|n|s|l|kv]; simpl; try (now exists None).
  destruct (fromisoformat s) as [d1|e1] eqn:E1; simpl.
  - exists (Some d1). split; [reflexivity|].
    intros Hrej. destruct (Hrej s eq_refl) as [[e He] _]. congruence.
  - rewrite (Hiso s e1 E1).
    destruct (strptime s DATETIME_FORMAT) as [d2|e2] eqn:E2; simpl.
    + exists (Some d2). split; [reflexivity|].
      intros Hrej. destruct (Hrej s eq_refl) as [_ [e He]]. congruence.
    + rewrite (Hstrp s _ e2 E2). now exists None.
Qed.

(** X16: provided the two library parsers raise nothing but [ValueError]
    or [TypeError], a reservation time never makes a save fail (a failure
    comes from the item list, from a session left unusable, or from the
    insert: a value the driver cannot bind or the null name), and a
    reservation text that neither parser accepts is dropped without
    notice: the order is stored with no reservation time. *)
Theorem save_order_drops_unparsed_reservation :
  (forall s e, fromisoformat s = Raise e -> is_value_or_type_error e = true) ->
  (forall s f e, strptime s f = Raise e -> is_value_or_type_error e = true) ->
  forall (s : @session datetime) (fields : dict) (phone : string),
    (forall e s',
       save_order fromisoformat strptime s (PDict fields) phone = (Raise e, s') ->
       calculate_order_total (get fields "order_items" (PList [])) = Raise e \/
       e = PendingRollbackError \/
       e = OverflowError \/
       e = ProgrammingError "orders.customer_name" \/
       e = ProgrammingError "orders.party_size" \/
       e = IntegrityError "orders.customer_name") /\
    (forall key s',
       save_order fromisoformat strptime s (PDict fields) phone = (Ok key, s') ->
       (forall text, get fields "reservation_time" PNone = PStr text ->
          raises (fromisoformat text) /\ raises (strptime text DATETIME_FORMAT)) ->
       exists row, table s' = table s ++ [row] /\ reservation_time row = None).
Proof.
  intros Hiso Hstrp s fields phone.
  destruct (parse_datetime_returns (get fields "reservation_time" PNone) Hiso Hstrp)
    as (r & Hr & Hnone).
  split.
  - intros e s'. rewrite save_order_cases.
    destruct (calculate_order_total _) as [total|e1];
      [|intros H; injection H as -> _; now left].
    rewrite Hr.
    destruct (needs_rollback s);
      [intros H; injection H as <- _; right; now left|].
    cbv zeta. unfold refusal. cbn [row_of customer_name order_total party_size].
    destruct (bindable (get fields "customer_name" _)) eqn:Hname; cbn [negb].
    2:{ intros H. injection H as <- _. unfold bind_error.
        destruct (get fields "customer_name" _); tauto. }
    destruct (fits_int64 total); cbn [negb];
      [|intros H; injection H as <- _; tauto].
    destruct (bindable (get fields "party_size" _)); cbn [negb].
    2:{ intros H. injection H as <- _. unfold bind_error.
        destruct (get fields "party_size" _); tauto. }
    destruct (is_none (get fields "customer_name" _)); [|discriminate].
    intros H. injection H as <- _. tauto.
  - intros key s' Hsaved Hrejected.
    destruct (save_order_inversion _ _ _ _ _ _ _ Hsaved)
      as (f & total & reservation & Hf & _ & Htime & _ & _ & -> & ->).
    injection Hf as <-. rewrite Hr in Htime. injection Htime as <-.
    eexists. split; [reflexivity|]. simpl. now apply Hnone.
Qed.

Variable json_loads : string -> result value.

(** X15: what the extractor returns for a payload that does not decode
    cannot be saved: passing it to [save_order], as the simulated call
    does with every result of the extractor, raises the integrity error of
    the name column (or, on a session that was already unusable, the
    pending-rollback error), stores nothing, and leaves the session such
    that no later order can be saved either. *)
Theorem fallback_details_cannot_be_saved (create : chat_api)
    (transcript : string) (history : list exchange) (payload : string)
    (rest : completion) (s : @session datetime) (phone : string) :
  create (extract_request
            (conversation_text history +:+ "Customer: " +:+ transcript))
    = Ok (Some payload :: rest) ->
  json_loads payload = Raise JSONDecodeError ->
  exists order_details,
    parse_order_details json_loads create transcript history = Ok order_details /\
    save_order fromisoformat strptime s order_details phone =
      (Raise (if needs_rollback s then PendingRollbackError
              else IntegrityError "orders.customer_name"),
       {| table := table s; needs_rollback := true |}) /\
    (forall later phone' key s',
       save_order fromisoformat strptime
         {| table := table s; needs_rollback := true |} later phone'
       <> (Ok key, s')).
Proof.
  intros Hanswer Hbad. exists FALLBACK_DETAILS.
  split; [now rewrite parse_order_details_cases, Hanswer, Hbad|].
  split.
  - unfold FALLBACK_DETAILS. rewrite save_order_cases.
    destruct s as [rows [|]]; reflexivity.
  - intros later phone' key s'. now apply save_order_needs_usable_session.
Qed.

End PersistenceMore.

Lemma save_order_rejects_null_name_witness :
  save_order Lib.fromisoformat Lib.strptime (Session [] false)
    (PDict [("customer_name", PNone); ("party_size", PInt 4)]) CALLER
  = (Raise (IntegrityError "orders.customer_name"), Session [] true).
Proof.
  refine (proj2 (save_order_rejects_null_name Lib.fromisoformat Lib.strptime
                   (Session [] false)
                   [("customer_name", PNone); ("party_size", PInt 4)] CALLER
                   eq_refl) 0%Z None _ _ _ _ _); reflexivity.
Defined.

Lemma fallback_details_cannot_be_saved_witness :
  exists order_details,
    parse_order_details Lib.json_loads
      (Lib.answering "I could not find an order.") "Thank you." []
      = Ok order_details /\
    save_order Lib.fromisoformat Lib.strptime
      (Session [ row_of johns_fields CALLER 1 2400 None ] false)
      order_details CALLER
    = (Raise (IntegrityError "orders.customer_name"),
       Session [ row_of johns_fields CALLER 1 2400 None ] true) /\
    (forall later phone' key s',
       save_order Lib.fromisoformat Lib.strptime
         (Session [ row_of johns_fields CALLER 1 2400 None ] true) later phone'
       <> (Ok key, s')).
Proof.
  exact (fallback_details_cannot_be_saved Lib.fromisoformat Lib.strptime
           Lib.json_loads (Lib.answering "I could not find an order.")
           "Thank you." [] "I could not find an order." []
           (Session [ row_of johns_fields CALLER 1 2400 None ] false) CALLER
           eq_refl eq_refl).
Defined.

Lemma save_order_drops_unparsed_reservation_witness :
  exists row : @Order Lib.timestamp,
    [ row_of [("customer_name", PStr "Ann");
              ("reservation_time", PStr "tomorrow at 7")]
        CALLER 1 0 None ] = [] ++ [row]
    /\ reservation_time row = None.
Proof.
  refine (proj2 (save_order_drops_unparsed_reservation
                   Lib.fromisoformat Lib.strptime
                   fromisoformat_raises strptime_raises (Session [] false)
                   [("customer_name", PStr "Ann");
                    ("reservation_time", PStr "tomorrow at 7")] CALLER)
                1%Z (Session _ false) eq_refl _).
  intros text Htext. injection Htext as <-.
  split; eexists; vm_compute; reflexivity.
Defined.

(** ** More on the notebook as a whole *)

Section WholeMore.

Context {datetime : Type}.
Variable json_loads : string -> result value.
Variable fromisoformat : string -> result datetime.
Variable strptime : string -> string -> result datetime.
Variable service : nat -> chat_api.

(** One call adds at most one row, at the end, and only by saving. *)
Lemma step_appends (c : call) (w : @world datetime) :
  exists added,
    table (db (snd (step json_loads fromisoformat strptime service c w)))
      = table (db w) ++ added /\
    (length added <= 1)%nat /\
    (forall row, In row added ->
       id row = next_id (table (db w)) /\ customer_name row <> PNone /\
       exists order_details phone, c = CSave order_details phone).
Proof.
  destruct c as [t|t h o|m g|t h|d p|v|v]; cbn [step];
    try (exists []; rewrite app_nil_r;
         split; [reflexivity|]; split; [simpl; lia|]; intros row []).
  - pose proof (generate_twiml_response_object_frame m g w) as Hframe.
    destruct (generate_twiml_response_object m g w) as [response w'].
    destruct Hframe as (Hdb & _). cbn [snd]. rewrite Hdb.
    exists []. rewrite app_nil_r.
    split; [reflexivity|]. split; [simpl; lia|]. intros row [].
  - destruct (save_order fromisoformat strptime (db w) d p) as [[key|e] s'] eqn:E;
      cbn [snd db].
    + destruct (save_order_inversion _ _ _ _ _ _ _ E)
        as (fields & total & reservation & _ & _ & _ & _ & Hrefusal & -> & ->).
      eexists. split; [reflexivity|]. split; [simpl; lia|].
      intros row [<-|[]]. split; [reflexivity|]. split; [|now exists d, p].
      apply refusal_none in Hrefusal. destruct Hrefusal as (_ & _ & _ & Hnone).
      intros Hname. rewrite Hname in Hnone. discriminate Hnone.
    + destruct (save_order_failure_keeps_table _ _ _ _ _ _ _ E) as [Htable _].
      exists []. rewrite app_nil_r.
      split; [exact Htable|]. split; [simpl; lia|]. intros row [].
Qed.

(** X17: no sequence of notebook calls deletes, reorders or rewrites a
    stored order: the table afterwards is the table before followed by the
    new rows, at most one per save in the sequence. *)
Theorem run_appends_only (cs : list call) (w : @world datetime) :
  exists added,
    table (db (snd (run json_loads fromisoformat strptime service cs w)))
      = table (db w) ++ added /\
    (length added <=
     length (List.filter (fun c => match c with CSave _ _ => true | _ => false end) cs))%nat.
Proof.
  revert w. induction cs as [|c cs IH]; intros w.
  - exists []. simpl. now rewrite app_nil_r.
  - simpl. destruct (step_appends c w) as (a1 & H1 & Hlen1 & Hrows).
    destruct (step _ _ _ _ c w) as [o w1]. simpl in H1.
    destruct (IH w1) as (a2 & H2 & Hlen2).
    destruct (run _ _ _ _ cs w1) as [os w2]. simpl in *.
    exists (a1 ++ a2). split; [now rewrite H2, H1, app_assoc|].
    rewrite length_app.
    destruct a1 as [|row a1]; simpl in *.
    + destruct c; simpl; lia.
    + destruct (Hrows row (or_introl eq_refl)) as (_ & _ & d & p & ->).
      simpl. lia.
Qed.

(** X18: if the stored orders have distinct keys and none has a null
    name, this is still so after any sequence of notebook calls. *)
Theorem run_keeps_table_sound (cs : list call) (w : @world datetime) :
  NoDup (map id (table (db w))) ->
  Forall (fun row => customer_name row <> PNone) (table (db w)) ->
  let w' := snd (run json_loads fromisoformat strptime service cs w) in
  NoDup (map id (table (db w'))) /\
  Forall (fun row => customer_name row <> PNone) (table (db w')).
Proof.
  cbv zeta. revert w. induction cs as [|c cs IH]; intros w Hkeys Hnames.
  - simpl. now split.
  - simpl. destruct (step_appends c w) as (a1 & H1 & Hlen1 & Hrows).
    destruct (step _ _ _ _ c w) as [o w1]. simpl in H1.
    specialize (IH w1).
    destruct (run _ _ _ _ cs w1) as [os w2]. simpl in *.
    apply IH; rewrite H1.
    + destruct a1 as [|row [|]]; simpl in Hlen1; try lia.
      * now rewrite app_nil_r.
      * apply fresh_key_keeps_keys_distinct; [|exact Hkeys].
        now destruct (Hrows row (or_introl eq_refl)).
    + apply Forall_app. split; [exact Hnames|].
      apply Forall_forall. intros row Hrow. apply list_elem_of_In in Hrow.
      now destruct (Hrows row Hrow) as (_ & Hname & _).
Qed.

End WholeMore.

Lemma run_keeps_table_sound_witness :
  let w' := snd (run Lib.json_loads Lib.fromisoformat Lib.strptime
                   (fun _ => Lib.failing "offline")
                   [ CSave johns_order CALLER; CSave johns_order CALLER;
                     CSave FALLBACK_DETAILS CALLER; CSave johns_order CALLER ]
                   (World (Session [] false) 0 [])) in
  NoDup (map id (table (db w'))) /\
  Forall (fun row => customer_name row <> PNone) (table (db w')).
Proof.
  refine (run_keeps_table_sound Lib.json_loads Lib.fromisoformat Lib.strptime
            (fun _ => Lib.failing "offline")
            [ CSave johns_order CALLER; CSave johns_order CALLER;
              CSave FALLBACK_DETAILS CALLER; CSave johns_order CALLER ]
            (World (Session [] false) 0 []) _ _).
  - simpl. constructor.
  - simpl. constructor.
Defined.

(** ** More on the TwiML builder *)

(** X19: the document determines the message and the flag it was built
    from: two documents are equal only if both were the same. *)
Theorem generate_twiml_response_injective (m m' : string) (g g' : bool) :
  generate_twiml_response m g = generate_twiml_response m' g'
  <-> m = m' /\ g = g'.
Proof.
  split; [|now intros [-> ->]].
  unfold generate_twiml_response. simpl.
  destruct g, g'; simpl; intros H; try discriminate H;
    injection H as ->; now split.
Qed.
